(** * embedchain: the YouTube transcript loader and the Elasticsearch adapter

    A shallow embedding of
      - [embedchain/loaders/youtube_video.py]   (class [YoutubeVideoLoader])
      - [embedchain/vectordb/elasticsearch_db.py] (class [ElasticsearchDB])
    and the properties of their public operations.

    Python exceptions are values of [exn]; a call that may raise returns a
    [result].  The Elasticsearch client is reached through requests: a method
    of the adapter is a program ([prog]) that issues requests one after the
    other and continues with each response, so that both the payload the
    code builds and what a search engine answers to it can be stated. *)

From Stdlib Require Import ZArith QArith String List.
From stdpp Require Import gmap strings list sorting pretty.

Open Scope string_scope.
Open Scope Z_scope.

(** ** Python values and exceptions *)

(** The scalar values that metadata mappings and filters carry. *)
Inductive pyval : Type :=
| PNone
| PBool (b : bool)
| PInt (z : Z)
| PStr (s : string).

#[global] Instance pyval_eq_dec : EqDecision pyval.
Proof. solve_decision. Defined.

(** The exceptions that the two classes raise themselves or let through. *)
Inductive exn : Type :=
| ValueError (msg : string)
| IndexError (msg : string)
| KeyError (key : string)
| NotFoundError (msg : string)
| BadRequestError (msg : string)
| OtherError (msg : string).

Inductive result (A : Type) : Type :=
| Ok (a : A)
| Err (e : exn).
Arguments Ok {A} a.
Arguments Err {A} e.

(** ** [embedchain/loaders/youtube_video.py] *)

Module YoutubeVideoLoader.

(** A langchain [Document]. *)
Record Document : Type := mkDocument {
  page_content : string;
  metadata : gmap string pyval
}.

(** A langchain [YoutubeLoader]: all the code does with it is call [load()]. *)
Record YoutubeLoader : Type := mkYoutubeLoader {
  load : result (list Document)
}.

(** The dict [{"content": ..., "meta_data": ...}] that [load_data] returns. *)
Record LoadedData : Type := mkLoadedData {
  content : string;
  meta_data : gmap string pyval
}.

Section Loader.

(** [YoutubeLoader.from_youtube_url(url, add_video_info=...)], the external
    transcript provider. *)
Variable from_youtube_url : string -> bool -> result YoutubeLoader.

(** [embedchain.utils.clean_string], which is not part of the two files. *)
Variable clean_string : string -> string.

Definition load_data (url : string) : result (list LoadedData) :=
  match from_youtube_url url true with
  | Err e => Err e
  | Ok loader =>
      match load loader with
      | Err e => Err e
      | Ok doc =>
          match doc with
          | [] => Err (ValueError "No data found")
          | doc0 :: _ =>
              let content := page_content doc0 in
              let content := clean_string content in
              let meta_data := metadata doc0 in
              let meta_data := <["url" := PStr url]> meta_data in
              Ok [ {| content := content; meta_data := meta_data |} ]
          end
      end
  end.

End Loader.

End YoutubeVideoLoader.

(** ** [embedchain/vectordb/elasticsearch_db.py]: data and requests *)

Module ElasticsearchDB.

(** An embedding vector; a float is taken as the rational it denotes. *)
Definition embedding : Type := list Q.

(** Modelled from the spec: [embedchain.config.ElasticsearchDBConfig] is not
    among the files; the spec has it as a connection URL plus a mapping of
    additional client parameters, which are the two attributes [__init__]
    reads. *)
Record ElasticsearchDBConfig : Type := mkConfig {
  ES_URL : string;
  ES_EXTRA_PARAMS : gmap string pyval
}.

(** Modelled from the spec: [embedchain.models.VectorDimensions] is not
    among the files; the spec has the vector dimension as an integer. *)
Definition VectorDimensions : Type := Z.

(** [f"{vector_dim}"] of an integer: its decimal numeral. *)
Definition format_dim (d : VectorDimensions) : string := pretty d.

(** The value passed as [embedding_fn]: [hasattr(v, "__call__")] holds of a
    function and of nothing else that the model has ([None] included). *)
Inductive pyfunction : Type :=
| NotCallable (v : pyval)
| Callable (f : list string -> result (list embedding)).

(** Index settings: [{"mappings": {"properties": {name: mapping}}}]. *)
Inductive field_mapping : Type :=
| TextField
| DenseVector (index : bool) (dims : Z).

Record index_settings : Type := mkSettings {
  properties : gmap string field_mapping
}.

(** The query DSL, as far as the adapter writes it. *)
Inductive clause : Type :=
| Ids (values : list string)
| Term (field : string) (value : pyval)
| Exists (field : string).

Record script : Type := mkScript {
  source : string;
  input_query_vector : embedding
}.

Inductive query_dsl : Type :=
| Bool (must : list clause)
| ScriptScore (query : query_dsl) (script_ : script)
| MatchAll.

(** The [_source] of a stored document. *)
Record doc_source : Type := mkSource {
  text : string;
  metadata : gmap string pyval;
  embeddings : embedding
}.

(** One action of a bulk write. *)
Record action : Type := mkAction {
  _index : string;
  _id : string;
  _source : doc_source
}.

(** The [_source] argument of a search. *)
Inductive source_filter : Type :=
| SourceFalse
| SourceFields (fields : list string).

(** One entry of [response["hits"]["hits"]]; [hit_source] is absent under
    [_source=False] and holds the requested fields otherwise. *)
Record hit_fields : Type := mkHitFields {
  hit_text : option string;
  hit_metadata : option (gmap string pyval);
  hit_embeddings : option embedding
}.

Record hit : Type := mkHit {
  hit_id : string;
  hit_score : Q;
  hit_source : option hit_fields
}.

(** The calls on the client, with the arguments the adapter passes. *)
Inductive request : Type :=
| NewClient (url : string) (params : gmap string pyval)
| IndicesExists (index : string)
| IndicesCreate (index : string) (body : index_settings)
| IndicesDelete (index : string)
| IndicesRefresh (index : string)
| HelpersBulk (actions : list action)
| Search (index : string) (query : query_dsl) (src : source_filter) (size : option Z)
| Count (index : string) (query : query_dsl).

(** What the adapter reads of the answer: the boolean of [indices.exists],
    [response["hits"]["hits"]] of a search, [response["count"]] of a count. *)
Definition response (r : request) : Type :=
  match r with
  | IndicesExists _ => bool
  | Search _ _ _ _ => list hit
  | Count _ _ => Z
  | _ => unit
  end.

(** A method body: it returns, raises, or calls the client and goes on with
    the answer. *)
Inductive prog (A : Type) : Type :=
| Ret (a : A)
| Raise (e : exn)
| Call (r : request) (k : response r -> prog A).
Arguments Ret {A} a.
Arguments Raise {A} e.
Arguments Call {A} r k.

Fixpoint bind {A B : Type} (m : prog A) (f : A -> prog B) : prog B :=
  match m with
  | Ret a => f a
  | Raise e => Raise e
  | Call r k => Call r (fun x => bind (k x) f)
  end.

Definition call (r : request) : prog (response r) := Call r Ret.

Declare Scope prog_scope.
Delimit Scope prog_scope with prog.
Notation "x <- m ;; k" := (bind m (fun x => k))
  (at level 100, m at next level, right associativity) : prog_scope.
Notation "m ;;; k" := (bind m (fun _ => k))
  (at level 100, right associativity) : prog_scope.
Open Scope prog_scope.

(** The value of a call to a Python function that may raise. *)
Definition lift {A : Type} (r : result A) : prog A :=
  match r with
  | Ok a => Ret a
  | Err e => Raise e
  end.

(** ** The class [ElasticsearchDB] *)

(** The attributes of an instance; [self.client] is the connection the
    requests go through. *)
Record ElasticsearchDB : Type := mkDB {
  embedding_fn : list string -> result (list embedding);
  vector_dim : VectorDimensions;
  es_index : string
}.

Definition index_settings_of (vector_dim : VectorDimensions) : index_settings :=
  {| properties :=
       <["text" := TextField]>
         (<["embeddings" := DenseVector false vector_dim]> ∅) |}.

(** [__init__]. The [print] before [indices.create] writes to the console
    only. [super().__init__()] is [BaseVectorDB.__init__], which is not among
    the files; the two hooks it has in this class are [_get_or_create_db],
    which returns the client, and [_get_or_create_collection], which does
    nothing, so it issues no request. *)
Definition __init__ (es_config : option ElasticsearchDBConfig)
    (embedding_fn : pyfunction) (vector_dim : option VectorDimensions)
    (collection_name : option string) : prog ElasticsearchDB :=
  match embedding_fn with
  | NotCallable _ => Raise (ValueError "Embedding function is not a function")
  | Callable fn =>
  match es_config with
  | None => Raise (ValueError "ElasticsearchDBConfig is required")
  | Some cfg =>
  match vector_dim with
  | None =>
      Raise (ValueError "Vector Dimension is required to refer correct index and mapping")
  | Some dim =>
  match collection_name with
  | None => Raise (ValueError "collection name is required. It cannot be empty")
  | Some name =>
      call (NewClient (ES_URL cfg) (ES_EXTRA_PARAMS cfg)) ;;;
      let es_index := name ++ "_" ++ format_dim dim in
      let index_settings := index_settings_of dim in
      present <- call (IndicesExists es_index) ;;
      (if negb present
       then call (IndicesCreate es_index index_settings)
       else Ret tt) ;;;
      Ret {| embedding_fn := fn; vector_dim := dim; es_index := es_index |}
  end end end end.

Definition get (self : ElasticsearchDB) (ids : list string)
    (where_ : gmap string pyval) : prog (gset string) :=
  let must := [Ids ids] in
  let must :=
    match where_ !! "app_id" with
    | Some app_id => (must ++ [Term "metadata.app_id" app_id])%list
    | None => must
    end in
  let query := Bool must in
  docs <- call (Search (es_index self) query SourceFalse None) ;;
  let ids := map hit_id docs in
  Ret (list_to_set ids).

(** [zip] of four lists stops with the shortest. *)
Fixpoint zip4 {A B C D : Type} (la : list A) (lb : list B) (lc : list C)
    (ld : list D) : list (A * B * C * D) :=
  match la, lb, lc, ld with
  | a :: la, b :: lb, c :: lc, d :: ld => (a, b, c, d) :: zip4 la lb lc ld
  | _, _, _, _ => []
  end.

Definition add_docs (self : ElasticsearchDB) (documents : list string)
    (metadatas : list (gmap string pyval)) (ids : list string)
    (embeddings : list embedding) : list action :=
  map (fun '(id, text, metadata, embeddings) =>
         {| _index := es_index self;
            _id := id;
            _source := {| text := text; metadata := metadata;
                          embeddings := embeddings |} |})
      (zip4 ids documents metadatas embeddings).

Definition add (self : ElasticsearchDB) (documents : list string)
    (metadatas : list (gmap string pyval)) (ids : list string) : prog unit :=
  embeddings <- lift (embedding_fn self documents) ;;
  let docs := add_docs self documents metadatas ids embeddings in
  call (HelpersBulk docs) ;;;
  call (IndicesRefresh (es_index self)) ;;;
  Ret tt.

(** [doc["_source"]["text"]] *)
Definition source_text (doc : hit) : prog string :=
  match hit_source doc with
  | None => Raise (KeyError "_source")
  | Some src =>
      match hit_text src with
      | None => Raise (KeyError "text")
      | Some t => Ret t
      end
  end.

Fixpoint texts_of (docs : list hit) : prog (list string) :=
  match docs with
  | [] => Ret []
  | doc :: docs =>
      t <- source_text doc ;;
      ts <- texts_of docs ;;
      Ret (t :: ts)
  end.

Definition script_source : string :=
  "cosineSimilarity(params.input_query_vector, 'embeddings') + 1.0".

Definition query (self : ElasticsearchDB) (input_query : list string)
    (n_results : Z) (where_ : gmap string pyval) : prog (list string) :=
  input_query_vector <- lift (embedding_fn self input_query) ;;
  match input_query_vector with
  | [] => Raise (IndexError "list index out of range")
  | query_vector :: _ =>
      let must := [Exists "text"] in
      let script_ := {| source := script_source;
                        input_query_vector := query_vector |} in
      let must :=
        match where_ !! "app_id" with
        | Some app_id => [Term "metadata.app_id" app_id]
        | None => must
        end in
      let query := ScriptScore (Bool must) script_ in
      let _source := SourceFields ["text"] in
      docs <- call (Search (es_index self) query _source (Some n_results)) ;;
      texts_of docs
  end.

Definition count (self : ElasticsearchDB) : prog Z :=
  let query := MatchAll in
  call (Count (es_index self) query).

Definition reset (self : ElasticsearchDB) : prog unit :=
  present <- call (IndicesExists (es_index self)) ;;
  if present
  then call (IndicesDelete (es_index self))
  else Ret tt.

End ElasticsearchDB.

(** ** The search engine behind the client

    The engine is not part of the repository. This is the reference model
    against which the adapter's programs are run: a cluster maps index names
    to indices; an index keeps the documents written to it ([stored]) and the
    snapshot that searches and counts read ([searchable]), which a refresh
    brings up to date. A request that names an index the cluster does not
    hold is answered with [index_not_found_exception], which the client
    raises as [NotFoundError]; [indices.exists] is the one request that
    answers with a boolean instead. *)

Module Elasticsearch.
Import ElasticsearchDB.

Record index : Type := mkIndex {
  mappings : index_settings;
  stored : list (string * doc_source);
  searchable : list (string * doc_source)
}.

Abbreviation cluster := (gmap string index).

(** Writing a document under an id that is taken replaces the old one. *)
Definition upsert (id : string) (d : doc_source)
    (docs : list (string * doc_source)) : list (string * doc_source) :=
  (filter (fun p => p.1 ≠ id) docs ++ [(id, d)])%list.

(** A bulk action on an index that is absent creates it, with no mappings
    declared (the engine's default [action.auto_create_index]). *)
Definition index_action (st : cluster) (a : action) : cluster :=
  let ix := default (mkIndex (mkSettings ∅) [] []) (st !! _index a) in
  <[_index a := {| mappings := mappings ix;
                   stored := upsert (_id a) (_source a) (stored ix);
                   searchable := searchable ix |}]> st.

(** The value of a scalar field of a document, by its dotted path. *)
Definition field_value (field : string) (d : doc_source) : option pyval :=
  if String.eqb field "text" then Some (PStr (text d))
  else if String.prefix "metadata." field
       then metadata d !! substring 9 (String.length field - 9)%nat field
       else None.

Definition has_field (field : string) (d : doc_source) : bool :=
  if String.eqb field "embeddings"
  then negb (bool_decide (embeddings d = []))
  else match field_value field d with
       | Some PNone | None => false
       | Some _ => true
       end.

Definition clause_matches (id : string) (d : doc_source) (c : clause) : bool :=
  match c with
  | Ids values => bool_decide (id ∈ values)
  | Term field value => bool_decide (field_value field d = Some value)
  | Exists field => has_field field d
  end.

Fixpoint matches (q : query_dsl) (p : string * doc_source) : bool :=
  match q with
  | Bool must => forallb (clause_matches p.1 p.2) must
  | ScriptScore q _ => matches q p
  | MatchAll => true
  end.

Definition project (src : source_filter) (d : doc_source) : option hit_fields :=
  match src with
  | SourceFalse => None
  | SourceFields fields =>
      Some {| hit_text :=
                if bool_decide ("text" ∈ fields) then Some (text d) else None;
              hit_metadata :=
                if bool_decide ("metadata" ∈ fields) then Some (metadata d) else None;
              hit_embeddings :=
                if bool_decide ("embeddings" ∈ fields) then Some (embeddings d) else None |}
  end.

(** Hits come best score first. *)
Definition by_score (h1 h2 : hit) : Prop := (hit_score h2 <= hit_score h1)%Q.

#[global] Instance by_score_dec (h1 h2 : hit) : Decision (by_score h1 h2) :=
  match Qlt_le_dec (hit_score h1) (hit_score h2) with
  | left H => right (Qlt_not_le _ _ H)
  | right H => left H
  end.

#[global] Instance by_score_total : Total by_score.
Proof.
  intros h1 h2. unfold by_score.
  destruct (Qlt_le_dec (hit_score h1) (hit_score h2)) as [H|H].
  - right. apply Qlt_le_weak. exact H.
  - left. exact H.
Qed.

#[global] Instance by_score_trans : Transitive by_score.
Proof.
  intros h1 h2 h3 H12 H23. unfold by_score in *. eapply Qle_trans; eassumption.
Qed.

Section Engine.

(** The engine's evaluation of a script on the [embeddings] of a document
    (for the adapter's script, cosine similarity plus one, in floating
    point). *)
Variable eval_script : script -> embedding -> Q.

(** The score of a matching document; only script scores are modelled, any
    other match scores 1. *)
Definition score (q : query_dsl) (d : doc_source) : Q :=
  match q with
  | ScriptScore _ s => eval_script s (embeddings d)
  | _ => 1%Q
  end.

Definition make_hit (q : query_dsl) (src : source_filter)
    (p : string * doc_source) : hit :=
  {| hit_id := p.1; hit_score := score q p.2; hit_source := project src p.2 |}.

Definition default_size : Z := 10.
Definition max_result_window : Z := 10000.

Definition search (ix : index) (q : query_dsl) (src : source_filter)
    (size : option Z) : result (list hit) :=
  let size := default default_size size in
  if size <? 0
  then Err (BadRequestError "[size] parameter cannot be negative")
  else if max_result_window <? size
  then Err (BadRequestError "Result window is too large")
  else Ok (take (Z.to_nat size)
             (merge_sort by_score
                (map (make_hit q src) (filter (fun p => matches q p) (searchable ix))))).

Definition count_matching (ix : index) (q : query_dsl) : Z :=
  Z.of_nat (length (filter (fun p => matches q p) (searchable ix))).

Definition index_not_found {A : Type} : result A :=
  Err (NotFoundError "index_not_found_exception").

(** The engine's answer to a request. Constructing the client sends nothing;
    the connection config is taken to be one that the client library
    accepts, so [NewClient] succeeds (a URL that the library cannot parse is
    refused by the library itself and is outside this model). *)
Definition handle (r : request) (st : cluster) : result (response r) * cluster :=
  match r as r0 return result (response r0) * cluster with
  | NewClient _ _ => (Ok tt, st)
  | IndicesExists i => (Ok (bool_decide (is_Some (st !! i))), st)
  | IndicesCreate i body =>
      match st !! i with
      | Some _ => (Err (BadRequestError "resource_already_exists_exception"), st)
      | None => (Ok tt, <[i := mkIndex body [] []]> st)
      end
  | IndicesDelete i =>
      match st !! i with
      | Some _ => (Ok tt, delete i st)
      | None => (index_not_found, st)
      end
  | IndicesRefresh i =>
      match st !! i with
      | Some ix => (Ok tt, <[i := mkIndex (mappings ix) (stored ix) (stored ix)]> st)
      | None => (index_not_found, st)
      end
  | HelpersBulk actions => (Ok tt, foldl index_action st actions)
  | Search i q src size =>
      match st !! i with
      | Some ix => (search ix q src size, st)
      | None => (index_not_found, st)
      end
  | Count i q =>
      match st !! i with
      | Some ix => (Ok (count_matching ix q), st)
      | None => (index_not_found, st)
      end
  end.

(** Running a program against a cluster: the outcome and the cluster left. *)
Fixpoint run {A : Type} (m : prog A) (st : cluster) : result A * cluster :=
  match m with
  | Ret a => (Ok a, st)
  | Raise e => (Err e, st)
  | Call r k =>
      match handle r st with
      | (Ok x, st') => run (k x) st'
      | (Err e, st') => (Err e, st')
      end
  end.

(** The requests a program issues on the way. *)
Fixpoint trace {A : Type} (m : prog A) (st : cluster) : list request :=
  match m with
  | Ret _ | Raise _ => []
  | Call r k =>
      r :: match handle r st with
           | (Ok x, st') => trace (k x) st'
           | (Err _, _) => []
           end
  end.

End Engine.

(** The cluster after [__init__] has made sure of its index. *)
Definition ensured (idx : string) (dim : VectorDimensions) (st : cluster) : cluster :=
  match st !! idx with
  | Some _ => st
  | None => <[idx := mkIndex (index_settings_of dim) [] []]> st
  end.

End Elasticsearch.

(** ** Sample inputs *)

Module Sample.
Import ElasticsearchDB Elasticsearch.

(** A two-dimensional embedding of a text. *)
Definition embed (s : string) : embedding :=
  [inject_Z (Z.of_nat (String.length s)); 1%Q].

Definition embedding_fn (texts : list string) : result (list embedding) :=
  Ok (map embed texts).

(** A rational stand-in for the engine's script: the dot product plus one. *)
Fixpoint dot (u v : embedding) : Q :=
  match u, v with
  | x :: u, y :: v => (x * y + dot u v)%Q
  | _, _ => 0%Q
  end.

Definition eval_script (s : script) (e : embedding) : Q :=
  (dot (input_query_vector s) e + 1)%Q.

Definition cfg : ElasticsearchDBConfig := mkConfig "http://localhost:9200" ∅.

Definition db : ElasticsearchDB := mkDB embedding_fn 2 "docs_2".

(** The index right after construction. *)
Definition fresh_index : index := mkIndex (index_settings_of 2) [] [].

Definition fresh : cluster := {["docs_2" := fresh_index]}.

(** The index with three documents written and refreshed. *)
Definition stocked_docs : list (string * doc_source) :=
  [("x", mkSource "one" ∅ (embed "one"));
   ("y", mkSource "three" {["app_id" := PStr "app"]} (embed "three"));
   ("z", mkSource "fifteen chars.." ∅ (embed "fifteen chars.."))].

Definition stocked_index : index :=
  mkIndex (index_settings_of 2) stocked_docs stocked_docs.

Definition stocked : cluster := {["docs_2" := stocked_index]}.

End Sample.

(** ** Auxiliary definitions for the further properties *)

Module Aux.
Import Stdlib.Strings.Ascii.
Import ElasticsearchDB Elasticsearch.

(** The [must] list that [get] sends: the ids clause, and after it the
    app-id term clause when the filter has the key. *)
Definition get_must (ids : list string) (where_ : gmap string pyval) : list clause :=
  Ids ids :: match where_ !! "app_id" with
             | Some app_id => [Term "metadata.app_id" app_id]
             | None => []
             end.

(** The documents of an index after the actions of a bulk write. *)
Definition written (actions : list action)
    (docs : list (string * doc_source)) : list (string * doc_source) :=
  foldl (fun l a => upsert (_id a) (_source a) l) docs actions.

(** A string without the character that separates name and dimension. *)
Fixpoint no_underscore (s : string) : bool :=
  match s with
  | EmptyString => true
  | String c s => negb (Ascii.eqb c "_"%char) && no_underscore s
  end.

(** The searchable documents that the query of [get] matches. *)
Definition get_matching (ids : list string) (where_ : gmap string pyval)
    (docs : list (string * doc_source)) : list (string * doc_source) :=
  filter (fun p => matches (Bool (get_must ids where_)) p) docs.

(** The similarity query that [query] sends for a filter and a query vector. *)
Definition query_of (where_ : gmap string pyval) (qv : embedding) : query_dsl :=
  ScriptScore
    (Bool match where_ !! "app_id" with
          | Some app_id => [Term "metadata.app_id" app_id]
          | None => [Exists "text"]
          end)
    (mkScript script_source qv).

End Aux.
Import Aux.

(** ** Further sample inputs *)

Module MoreSample.
Import ElasticsearchDB Elasticsearch.




(** An index with eleven documents, written and refreshed. *)
Definition eleven_ids : list string :=
  ["d01"; "d02"; "d03"; "d04"; "d05"; "d06"; "d07"; "d08"; "d09"; "d10"; "d11"].

Definition eleven_docs : list (string * doc_source) :=
  map (fun id => (id, mkSource id ∅ (Sample.embed id))) eleven_ids.

Definition eleven_index : index :=
  mkIndex (index_settings_of 2) eleven_docs eleven_docs.

Definition crowded : cluster := {["docs_2" := eleven_index]}.

End MoreSample.

(** * Properties *)

(** ** The loader *)

Section LoaderProperties.
Import YoutubeVideoLoader.

Variable from_youtube_url : string -> bool -> result YoutubeLoader.
Variable clean_string : string -> string.

(** C8: when the transcript provider hands back no document for a video,
    [load_data] raises its "No data found" error and returns no record. *)
Theorem load_data_no_document (url : string) (loader : YoutubeLoader) :
  from_youtube_url url true = Ok loader ->
  load loader = Ok [] ->
  load_data from_youtube_url clean_string url = Err (ValueError "No data found").
Proof.
  intros Hurl Hload. unfold load_data. rewrite Hurl, Hload. reflexivity.
Qed.

(** C9: when the provider hands back at least one document, [load_data]
    returns a list of exactly one record; its metadata holds the video
    reference under the key "url", next to what the provider gave for the
    first document, and its content is the cleaned text of that document. *)
Theorem load_data_single_record (url : string) (loader : YoutubeLoader)
    (doc0 : Document) (docs : list Document) :
  from_youtube_url url true = Ok loader ->
  load loader = Ok (doc0 :: docs) ->
  exists r : LoadedData,
    load_data from_youtube_url clean_string url = Ok [r]
    /\ meta_data r !! "url" = Some (PStr url)
    /\ (forall k : string, k <> "url" -> meta_data r !! k = metadata doc0 !! k)
    /\ content r = clean_string (page_content doc0).
Proof.
  intros Hurl Hload. unfold load_data. rewrite Hurl, Hload.
  eexists. split; [reflexivity|]. cbn. repeat split.
  - apply lookup_insert_eq.
  - intros k Hk. apply lookup_insert_ne. congruence.
Qed.

End LoaderProperties.

Lemma load_data_no_document_witness :
  YoutubeVideoLoader.load_data
    (fun _ _ => Ok (YoutubeVideoLoader.mkYoutubeLoader (Ok [])))
    (fun s => s) "https://www.youtube.com/watch?v=x"
  = Err (ValueError "No data found").
Proof.
  apply (load_data_no_document _ _ _ (YoutubeVideoLoader.mkYoutubeLoader (Ok [])));
    reflexivity.
Defined.

Lemma load_data_single_record_witness :
  exists r : YoutubeVideoLoader.LoadedData,
    YoutubeVideoLoader.load_data
      (fun _ _ => Ok (YoutubeVideoLoader.mkYoutubeLoader
         (Ok [YoutubeVideoLoader.mkDocument "hello  world" {["title" := PStr "t"]}])))
      (fun s => s) "https://www.youtube.com/watch?v=x" = Ok [r]
    /\ YoutubeVideoLoader.meta_data r !! "url"
       = Some (PStr "https://www.youtube.com/watch?v=x")
    /\ (forall k : string, k <> "url" ->
          YoutubeVideoLoader.meta_data r !! k
          = ({["title" := PStr "t"]} : gmap string pyval) !! k)
    /\ YoutubeVideoLoader.content r = "hello  world".
Proof.
  exact (load_data_single_record
           (fun _ _ => Ok (YoutubeVideoLoader.mkYoutubeLoader
              (Ok [YoutubeVideoLoader.mkDocument "hello  world" {["title" := PStr "t"]}])))
           (fun s => s) "https://www.youtube.com/watch?v=x"
           (YoutubeVideoLoader.mkYoutubeLoader
              (Ok [YoutubeVideoLoader.mkDocument "hello  world" {["title" := PStr "t"]}]))
           (YoutubeVideoLoader.mkDocument "hello  world" {["title" := PStr "t"]}) []
           eq_refl eq_refl).
Defined.

(** ** The adapter: what its programs are *)

Section AdapterPrograms.
Import ElasticsearchDB.

(** The [must] clauses of the similarity query, by the filter. *)
Lemma query_program (self : ElasticsearchDB) (input_query : list string)
    (n_results : Z) (where_ : gmap string pyval) (qv : embedding)
    (rest : list embedding) :
  embedding_fn self input_query = Ok (qv :: rest) ->
  query self input_query n_results where_
  = Call (Search (es_index self)
            (ScriptScore
               (Bool match where_ !! "app_id" with
                     | Some app_id => [Term "metadata.app_id" app_id]
                     | None => [Exists "text"]
                     end)
               (mkScript script_source qv))
            (SourceFields ["text"]) (Some n_results))
         texts_of.
Proof.
  intros Hfn. unfold query. rewrite Hfn. reflexivity.
Qed.

Lemma add_program (self : ElasticsearchDB) (documents : list string)
    (metadatas : list (gmap string pyval)) (ids : list string)
    (embs : list embedding) :
  embedding_fn self documents = Ok embs ->
  add self documents metadatas ids
  = Call (HelpersBulk (add_docs self documents metadatas ids embs))
      (fun _ => Call (IndicesRefresh (es_index self)) (fun _ => Ret tt)).
Proof.
  intros Hfn. unfold add. rewrite Hfn. reflexivity.
Qed.

Lemma zip4_length {A B C D : Type} (la : list A) (lb : list B) (lc : list C)
    (ld : list D) :
  length (zip4 la lb lc ld)
  = Nat.min (Nat.min (length la) (length lb)) (Nat.min (length lc) (length ld)).
Proof.
  revert lb lc ld. induction la as [|a la IH]; intros lb lc ld; [reflexivity|].
  destruct lb as [|b lb]; [reflexivity|].
  destruct lc as [|c lc]; [cbn; lia|].
  destruct ld as [|d ld]; [cbn; lia|].
  cbn. rewrite IH. reflexivity.
Qed.

Lemma zip4_lookup {A B C D : Type} (la : list A) (lb : list B) (lc : list C)
    (ld : list D) (i : nat) (a : A) (b : B) (c : C) (d : D) :
  la !! i = Some a -> lb !! i = Some b -> lc !! i = Some c -> ld !! i = Some d ->
  zip4 la lb lc ld !! i = Some (a, b, c, d).
Proof.
  revert lb lc ld i. induction la as [|a' la IH]; intros lb lc ld i Ha Hb Hc Hd.
  - destruct i; discriminate.
  - destruct lb as [|b' lb]; [destruct i; discriminate|].
    destruct lc as [|c' lc]; [destruct i; discriminate|].
    destruct ld as [|d' ld]; [destruct i; discriminate|].
    destruct i as [|i]; cbn in *.
    + congruence.
    + apply IH; assumption.
Qed.

(** Every hit that carries its text gives it back, in the order of the hits. *)
Lemma texts_of_hits (docs : list hit) (ts : list string) :
  Forall2 (fun h t => exists src, hit_source h = Some src /\ hit_text src = Some t)
          docs ts ->
  texts_of docs = Ret ts.
Proof.
  induction 1 as [|h t docs ts (src & Hs & Ht) _ IH]; [reflexivity|].
  cbn. unfold source_text. rewrite Hs, Ht. cbn. rewrite IH. reflexivity.
Qed.

End AdapterPrograms.

(** ** The adapter run against the engine *)

Section AdapterProperties.
Import ElasticsearchDB Elasticsearch.

Variable eval_script : script -> embedding -> Q.

Local Abbreviation run := (run eval_script).
Local Abbreviation trace := (trace eval_script).

Lemma run_bind {A B : Type} (m : prog A) (f : A -> prog B) (st : cluster) :
  run (bind m f) st
  = match run m st with
    | (Ok a, st') => run (f a) st'
    | (Err e, st') => (Err e, st')
    end.
Proof.
  revert st. induction m as [a|e|r k IH]; intros st; cbn; try reflexivity.
  destruct (handle eval_script r st) as [[x|e] st']; [apply IH|reflexivity].
Qed.

Lemma ensured_lookup (idx : string) (dim : VectorDimensions) (st : cluster) :
  is_Some (ensured idx dim st !! idx).
Proof.
  unfold ensured. destruct (st !! idx) as [ix|] eqn:E.
  - rewrite E. eauto.
  - rewrite lookup_insert_eq. eauto.
Qed.

Lemma ensured_idem (idx : string) (dim : VectorDimensions) (st : cluster) :
  ensured idx dim (ensured idx dim st) = ensured idx dim st.
Proof.
  destruct (ensured_lookup idx dim st) as [ix E].
  unfold ensured at 1. rewrite E. reflexivity.
Qed.

Lemma init_run (cfg : ElasticsearchDBConfig)
    (fn : list string -> result (list embedding)) (dim : VectorDimensions)
    (name : string) (st : cluster) :
  run (__init__ (Some cfg) (Callable fn) (Some dim) (Some name)) st
  = (Ok (mkDB fn dim (name ++ "_" ++ format_dim dim)),
     ensured (name ++ "_" ++ format_dim dim) dim st).
Proof.
  unfold ensured. cbn.
  destruct (st !! (name ++ "_" ++ format_dim dim)) as [ix|] eqn:E.
  - rewrite bool_decide_eq_true_2 by eauto. reflexivity.
  - rewrite bool_decide_eq_false_2 by (intros [? ?]; congruence).
    cbn. rewrite E. reflexivity.
Qed.

Lemma init_trace_present (cfg : ElasticsearchDBConfig)
    (fn : list string -> result (list embedding)) (dim : VectorDimensions)
    (name : string) (st : cluster) :
  is_Some (st !! (name ++ "_" ++ format_dim dim)) ->
  trace (__init__ (Some cfg) (Callable fn) (Some dim) (Some name)) st
  = [NewClient (ES_URL cfg) (ES_EXTRA_PARAMS cfg);
     IndicesExists (name ++ "_" ++ format_dim dim)].
Proof.
  intros H. cbn. rewrite bool_decide_eq_true_2 by assumption. reflexivity.
Qed.

(** The constructor raises one of its own errors exactly on a missing
    argument; a collection name that is present is never looked into. *)
Lemma init_raises_iff (es_config : option ElasticsearchDBConfig)
    (embedding_fn : pyfunction) (vector_dim : option VectorDimensions)
    (collection_name : option string) (st : cluster) :
  (exists e, (run (__init__ es_config embedding_fn vector_dim collection_name) st).1 = Err e)
  <-> ((forall f, embedding_fn <> Callable f) \/ es_config = None
       \/ vector_dim = None \/ collection_name = None).
Proof.
  destruct embedding_fn as [v|f].
  { split; [intros _; left; discriminate|intros _; cbn; eauto]. }
  destruct es_config as [cfg|].
  2:{ split; [intros _; auto|intros _; cbn; eauto]. }
  destruct vector_dim as [dim|].
  2:{ split; [intros _; auto|intros _; cbn; eauto]. }
  destruct collection_name as [name|].
  2:{ split; [intros _; auto|intros _; cbn; eauto]. }
  rewrite init_run. cbn. split.
  - intros [e He]. discriminate.
  - intros [H|[H|[H|H]]]; try discriminate. exfalso. apply (H f). reflexivity.
Qed.

(** C1: an empty collection name does not make the constructor raise: with
    the other three arguments given, construction with the name [""] goes
    through on every cluster and yields an adapter on the index named by the
    underscore and the dimension alone. *)
Theorem init_accepts_empty_collection_name (cfg : ElasticsearchDBConfig)
    (fn : list string -> result (list embedding)) (dim : VectorDimensions)
    (st : cluster) :
  run (__init__ (Some cfg) (Callable fn) (Some dim) (Some "")) st
  = (Ok (mkDB fn dim ("_" ++ format_dim dim)), ensured ("_" ++ format_dim dim) dim st).
Proof.
  apply init_run.
Qed.

(** C6: constructing the adapter twice for the same collection name and
    vector dimension never errors; the second construction only asks whether
    the index exists, issues no create and leaves the cluster as the first
    left it, with the one index of the collection added to what was there. *)
Theorem init_twice_one_index (cfg1 cfg2 : ElasticsearchDBConfig)
    (fn1 fn2 : list string -> result (list embedding)) (dim : VectorDimensions)
    (name : string) (st : cluster) :
  let idx := name ++ "_" ++ format_dim dim in
  let first := __init__ (Some cfg1) (Callable fn1) (Some dim) (Some name) in
  let second := __init__ (Some cfg2) (Callable fn2) (Some dim) (Some name) in
  exists st1 : cluster,
    run first st = (Ok (mkDB fn1 dim idx), st1)
    /\ run second st1 = (Ok (mkDB fn2 dim idx), st1)
    /\ trace second st1
       = [NewClient (ES_URL cfg2) (ES_EXTRA_PARAMS cfg2); IndicesExists idx]
    /\ is_Some (st1 !! idx)
    /\ dom st1 = {[idx]} ∪ dom st
    /\ (forall i : string, i <> idx -> st1 !! i = st !! i).
Proof.
  intros idx first second. exists (ensured idx dim st).
  split; [apply init_run|].
  split; [unfold second; rewrite init_run, ensured_idem; reflexivity|].
  split; [apply init_trace_present, ensured_lookup|].
  split; [apply ensured_lookup|].
  unfold ensured. destruct (st !! idx) as [ix|] eqn:E.
  - split; [|reflexivity].
    assert (Hin : idx ∈ dom st) by (apply elem_of_dom; eauto).
    apply set_eq. intros i. rewrite elem_of_union, elem_of_singleton.
    split; [auto|intros [->|H]; assumption].
  - split; [apply dom_insert_L|].
    intros i Hi. apply lookup_insert_ne. congruence.
Qed.

(** C4 (as amended): [reset] never errors, whether the index of the
    collection exists or is already absent (then it only asks for existence
    and deletes nothing), and it leaves the index absent; a [count] right
    after it is answered by the engine with index-not-found, which the
    client raises, and not with 0. *)
Theorem reset_leaves_index_absent (self : ElasticsearchDB) (st : cluster) :
  run (reset self) st = (Ok tt, delete (es_index self) st)
  /\ trace (reset self) st
     = IndicesExists (es_index self)
       :: match st !! es_index self with
          | Some _ => [IndicesDelete (es_index self)]
          | None => []
          end
  /\ delete (es_index self) st !! es_index self = None
  /\ run (reset self ;;; count self) st
     = (Err (NotFoundError "index_not_found_exception"), delete (es_index self) st).
Proof.
  assert (Hreset : run (reset self) st = (Ok tt, delete (es_index self) st)).
  { cbn. destruct (st !! es_index self) as [ix|] eqn:E.
    - rewrite bool_decide_eq_true_2 by eauto. cbn. rewrite E. reflexivity.
    - rewrite bool_decide_eq_false_2 by (intros [? ?]; congruence).
      cbn. rewrite delete_id by assumption. reflexivity. }
  split; [exact Hreset|]. split.
  { cbn. destruct (st !! es_index self) as [ix|] eqn:E.
    - rewrite bool_decide_eq_true_2 by eauto. cbn. rewrite E. reflexivity.
    - rewrite bool_decide_eq_false_2 by (intros [? ?]; congruence). reflexivity. }
  split; [apply lookup_delete_eq|].
  rewrite run_bind, Hreset. cbn. rewrite lookup_delete_eq. reflexivity.
Qed.

Lemma bulk_keeps_index (actions : list action) (st : cluster) (i : string) :
  is_Some (st !! i) -> is_Some (foldl index_action st actions !! i).
Proof.
  revert st. induction actions as [|a actions IH]; intros st H; [exact H|].
  cbn. apply IH. unfold index_action.
  destruct (decide (_index a = i)) as [->|Hne].
  - rewrite lookup_insert_eq. eauto.
  - rewrite lookup_insert_ne by assumption. exact H.
Qed.

(** C10: [add] raises nothing of its own when the sequences differ in
    length: it writes, in one bulk call, as many records as the shortest of
    texts, metadatas, ids and embeddings has entries, the i-th record made of
    the i-th entry of each, and drops what the longer ones have beyond that;
    on a cluster that holds the index the call returns normally. *)
Theorem add_pairs_up_to_shortest (self : ElasticsearchDB)
    (documents : list string) (metadatas : list (gmap string pyval))
    (ids : list string) (embs : list embedding) (st : cluster) :
  embedding_fn self documents = Ok embs ->
  is_Some (st !! es_index self) ->
  let docs := add_docs self documents metadatas ids embs in
  add self documents metadatas ids
  = Call (HelpersBulk docs)
      (fun _ => Call (IndicesRefresh (es_index self)) (fun _ => Ret tt))
  /\ length docs
     = Nat.min (Nat.min (length documents) (length metadatas))
               (Nat.min (length ids) (length embs))
  /\ (forall (i : nat) (id t : string) (m : gmap string pyval) (e : embedding),
        ids !! i = Some id -> documents !! i = Some t ->
        metadatas !! i = Some m -> embs !! i = Some e ->
        docs !! i = Some (mkAction (es_index self) id (mkSource t m e)))
  /\ (run (add self documents metadatas ids) st).1 = Ok tt.
Proof.
  intros Hfn Hix docs. split; [apply add_program; assumption|]. split.
  { unfold docs, add_docs. rewrite length_map, zip4_length. lia. }
  split.
  { intros i id t m e Hid Ht Hm He. unfold docs, add_docs.
    change (map ?f ?l) with (f <$> l). rewrite list_lookup_fmap.
    rewrite (zip4_lookup _ _ _ _ _ _ _ _ _ Hid Ht Hm He). reflexivity. }
  rewrite (add_program _ _ _ _ _ Hfn). cbn.
  destruct (bulk_keeps_index docs st (es_index self) Hix) as [ix E].
  fold docs. rewrite E. reflexivity.
Qed.

Lemma filter_none {A : Type} (P : A -> Prop) `{forall x, Decision (P x)}
    (l : list A) :
  (forall x, x ∈ l -> ~ P x) -> filter P l = [].
Proof.
  induction l as [|x l IH]; intros Hl; [reflexivity|].
  rewrite filter_cons_False by (apply Hl; left).
  apply IH. intros y Hy. apply Hl. right. exact Hy.
Qed.

Lemma index_action_present (st : cluster) (i id : string) (d : doc_source)
    (ix : index) :
  st !! i = Some ix ->
  index_action st (mkAction i id d)
  = <[i := mkIndex (mappings ix) (upsert id d (stored ix)) (searchable ix)]> st.
Proof.
  intros H. unfold index_action. cbn [_index _id _source]. rewrite H. reflexivity.
Qed.

Lemma add_run (self : ElasticsearchDB) (documents : list string)
    (metadatas : list (gmap string pyval)) (ids : list string)
    (embs : list embedding) (st : cluster) (ix : index) :
  embedding_fn self documents = Ok embs ->
  foldl index_action st (add_docs self documents metadatas ids embs)
    !! es_index self = Some ix ->
  run (add self documents metadatas ids) st
  = (Ok tt,
     <[es_index self := mkIndex (mappings ix) (stored ix) (stored ix)]>
       (foldl index_action st (add_docs self documents metadatas ids embs))).
Proof.
  intros Hfn Hix. rewrite (add_program _ _ _ _ _ Hfn).
  cbn [Elasticsearch.run handle]. rewrite Hix. reflexivity.
Qed.

Lemma get_run (self : ElasticsearchDB) (ids : list string) (st : cluster)
    (ix : index) :
  st !! es_index self = Some ix ->
  run (get self ids ∅) st
  = (Ok (list_to_set
           (map hit_id
              (take 10 (merge_sort by_score
                 (map (make_hit eval_script (Bool [Ids ids]) SourceFalse)
                    (filter (fun p => matches (Bool [Ids ids]) p) (searchable ix))))))),
     st).
Proof.
  intros Hix. unfold get. rewrite lookup_empty.
  cbn [Elasticsearch.run handle bind call]. rewrite Hix. reflexivity.
Qed.

(** What an ids query for "a", "b" and "c" finds once "a" and "b" have been
    written over documents none of which goes by "c". *)
Lemma ids_query_after_upserts (docs : list (string * doc_source))
    (d1 d2 : doc_source) :
  (forall d, ("c", d) ∉ docs) ->
  filter (fun p => matches (Bool [Ids ["a"; "b"; "c"]]) p)
         (upsert "b" d2 (upsert "a" d1 docs))
  = [("a", d1); ("b", d2)].
Proof.
  intros Hc. unfold upsert.
  rewrite (filter_app (fun p => p.1 <> "b")), !filter_app.
  rewrite (filter_none _ (filter _ (filter _ docs))).
  - reflexivity.
  - intros [id d] Hin.
    apply list_elem_of_filter in Hin as [Hb Hin].
    apply list_elem_of_filter in Hin as [Ha Hin].
    cbn in *. rewrite andb_true_r. intros Hm.
    apply bool_decide_unpack in Hm.
    rewrite !elem_of_cons in Hm.
    destruct Hm as [->|[->|[->|Hm]]]; try congruence.
    + exact (Hc d Hin).
    + inversion Hm.
Qed.

(** C3: once [add] of two items under the ids "a" and "b" has returned (its
    refresh included), [get] over "a", "b" and "c" with an empty filter
    returns exactly the set of "a" and "b", on every cluster that holds the
    index and has no document "c" in it. *)
Theorem add_then_exists (self : ElasticsearchDB) (t1 t2 : string)
    (m1 m2 : gmap string pyval) (e1 e2 : embedding) (rest : list embedding)
    (st : cluster) (ix : index) :
  embedding_fn self [t1; t2] = Ok (e1 :: e2 :: rest) ->
  st !! es_index self = Some ix ->
  (forall d, ("c", d) ∉ stored ix) ->
  exists st' : cluster,
    run (add self [t1; t2] [m1; m2] ["a"; "b"] ;;;
         get self ["a"; "b"; "c"] ∅) st
    = (Ok ({["a"; "b"]} : gset string), st').
Proof.
  intros Hfn Hix Hc. eexists.
  rewrite run_bind.
  erewrite (add_run _ _ _ _ _ _ _ Hfn).
  2:{ cbn [add_docs zip4 map foldl].
      rewrite (index_action_present _ _ _ _ _ Hix).
      erewrite index_action_present by apply lookup_insert_eq.
      apply lookup_insert_eq. }
  cbn [mappings stored searchable].
  erewrite get_run by apply lookup_insert_eq.
  cbn [mappings stored searchable].
  rewrite (ids_query_after_upserts _ _ _ Hc).
  match goal with |- (Ok ?s, _) = _ =>
    assert (Hs : s = ({["a"; "b"]} : gset string)); [|rewrite Hs; reflexivity]
  end.
  match goal with |- context [merge_sort ?R ?l] =>
    pose proof (merge_sort_Permutation R l) as Hp; set (sorted := merge_sort R l) in *
  end.
  rewrite take_ge by (rewrite (Permutation_length Hp); cbn; lia).
  rewrite (list_to_set_perm_L _ _ (Permutation_map hit_id Hp)).
  cbn. rewrite (right_id_L ∅ (∪)). reflexivity.
Qed.

Lemma StronglySorted_of_map {A B : Type} (f : A -> B) (R : relation B)
    (l : list A) :
  StronglySorted R (map f l) -> StronglySorted (fun x y => R (f x) (f y)) l.
Proof.
  induction l as [|x l IH]; intros Hs; [constructor|].
  cbn in Hs. apply StronglySorted_inv in Hs as [Hs Hx].
  constructor; [apply IH; exact Hs|].
  rewrite List.Forall_map in Hx. exact Hx.
Qed.

(** With [_source=["text"]] every hit carries the text of its document. *)
Lemma texts_of_text_hits (q : query_dsl) (docs : list (string * doc_source)) :
  texts_of (map (make_hit eval_script q (SourceFields ["text"])) docs)
  = Ret (map (fun p => text p.2) docs).
Proof.
  induction docs as [|p docs IH]; [reflexivity|].
  cbn [map texts_of]. rewrite IH. reflexivity.
Qed.

(** C7: on a cluster that holds the index, [query] with a limit [n] within
    the result window returns at most [n] elements; each is the stored text
    of a searchable document that matches the query and nothing else is
    returned; they come in descending order of score, and no matching
    document that is left out scores higher than one that is returned. *)
Theorem query_returns_top_texts (self : ElasticsearchDB)
    (input_query : list string) (n_results : Z) (where_ : gmap string pyval)
    (qv : embedding) (rest : list embedding) (st : cluster) (ix : index) :
  embedding_fn self input_query = Ok (qv :: rest) ->
  st !! es_index self = Some ix ->
  0 <= n_results <= max_result_window ->
  let q := ScriptScore
             (Bool match where_ !! "app_id" with
                   | Some app_id => [Term "metadata.app_id" app_id]
                   | None => [Exists "text"]
                   end)
             (mkScript script_source qv) in
  let sc := fun p : string * doc_source =>
              eval_script (mkScript script_source qv) (embeddings p.2) in
  exists docs others : list (string * doc_source),
    run (query self input_query n_results where_) st
    = (Ok (map (fun p => text p.2) docs), st)
    /\ Z.of_nat (length docs) <= n_results
    /\ length docs = Nat.min (Z.to_nat n_results) (length (docs ++ others))
    /\ (forall p, p ∈ docs -> p ∈ searchable ix /\ matches q p)
    /\ StronglySorted (fun p1 p2 => (sc p2 <= sc p1)%Q) docs
    /\ (forall p o, p ∈ docs -> o ∈ others -> (sc o <= sc p)%Q)
    /\ (docs ++ others)%list ≡ₚ filter (fun p => matches q p) (searchable ix).
Proof.
  intros Hfn Hix Hn q sc.
  rewrite (query_program _ _ _ _ _ _ Hfn). fold q.
  cbn [Elasticsearch.run handle]. rewrite Hix. unfold search.
  change (default default_size (Some n_results)) with n_results.
  destruct (Z.ltb_spec n_results 0) as [Hneg|_]; [lia|].
  destruct (Z.ltb_spec max_result_window n_results) as [Hbig|_]; [lia|].
  set (matching := filter (fun p => matches q p) (searchable ix)).
  set (mk := make_hit eval_script q (SourceFields ["text"])).
  pose proof (merge_sort_Permutation by_score (map mk matching)) as Hperm.
  pose proof (StronglySorted_merge_sort by_score (map mk matching)) as Hsorted.
  destruct (Permutation_map_inv _ _ Hperm) as (sorted & Heq & Hps).
  rewrite Heq in Hsorted |- *. clear Heq Hperm.
  apply StronglySorted_of_map in Hsorted.
  rewrite firstn_map.
  exists (take (Z.to_nat n_results) sorted), (drop (Z.to_nat n_results) sorted).
  rewrite take_drop. rewrite <- (take_drop (Z.to_nat n_results) sorted) in Hsorted.
  apply StronglySorted_app in Hsorted as (Htop & Hdocs & _).
  split; [unfold mk; rewrite texts_of_text_hits; reflexivity|].
  split; [rewrite length_take; lia|].
  split; [apply length_take|].
  split.
  { intros p Hp. apply subseteq_take in Hp.
    assert (Hm : p ∈ matching) by (rewrite Hps; exact Hp).
    apply list_elem_of_filter in Hm as [Hm Hin]. split; assumption. }
  split; [exact Hdocs|].
  split; [intros p o Hp Ho; exact (Htop p o Hp Ho)|].
  symmetry. exact Hps.
Qed.


Lemma texts_of_no_call (docs : list hit) :
  (exists ts, texts_of docs = Ret ts) \/ (exists e, texts_of docs = Raise e).
Proof.
  induction docs as [|doc docs IH]; [left; eexists; reflexivity|].
  cbn [texts_of]. unfold source_text.
  destruct (hit_source doc) as [src|]; [|right; eexists; reflexivity].
  destruct (hit_text src) as [t|]; [|right; eexists; reflexivity].
  cbn [bind]. destruct IH as [[ts ->]|[e ->]].
  - left. eexists. reflexivity.
  - right. eexists. reflexivity.
Qed.

(** C5: when the filter has the key "app_id", the similarity query that
    [query] sends is restricted by the app-id term clause and by nothing
    else: the term clause stands in the place of the default clause on the
    text field, which is not in the request. This holds of every request a
    call of [query] with such a filter issues. *)
Theorem query_filter_replaces_default (self : ElasticsearchDB)
    (input_query : list string) (n_results : Z) (where_ : gmap string pyval)
    (app_id : pyval) :
  where_ !! "app_id" = Some app_id ->
  (forall (qv : embedding) (rest : list embedding),
     embedding_fn self input_query = Ok (qv :: rest) ->
     query self input_query n_results where_
     = Call (Search (es_index self)
               (ScriptScore (Bool [Term "metadata.app_id" app_id])
                            (mkScript script_source qv))
               (SourceFields ["text"]) (Some n_results))
            texts_of)
  /\ (forall (st : cluster) (r : request),
        r ∈ trace (query self input_query n_results where_) st ->
        exists qv : embedding,
          r = Search (es_index self)
                (ScriptScore (Bool [Term "metadata.app_id" app_id])
                             (mkScript script_source qv))
                (SourceFields ["text"]) (Some n_results))
  /\ Exists "text" ∉ [Term "metadata.app_id" app_id].
Proof.
  intros Hw.
  assert (Hq : forall qv rest, embedding_fn self input_query = Ok (qv :: rest) ->
     query self input_query n_results where_
     = Call (Search (es_index self)
               (ScriptScore (Bool [Term "metadata.app_id" app_id])
                            (mkScript script_source qv))
               (SourceFields ["text"]) (Some n_results))
            texts_of).
  { intros qv rest Hfn. rewrite (query_program _ _ _ _ _ _ Hfn), Hw. reflexivity. }
  split; [exact Hq|]. split.
  - intros st r Hr.
    destruct (embedding_fn self input_query) as [[|qv rest]|e] eqn:Hfn.
    + unfold query in Hr. rewrite Hfn in Hr. cbn in Hr. inversion Hr.
    + rewrite (Hq qv rest eq_refl) in Hr. cbn [Elasticsearch.trace] in Hr.
      apply elem_of_cons in Hr as [->|Hr]; [exists qv; reflexivity|].
      exfalso.
      destruct (handle eval_script _ st) as [[hits|e] st']; [|inversion Hr].
      destruct (texts_of_no_call hits) as [[ts Ht]|[e Ht]];
        rewrite Ht in Hr; inversion Hr.
    + unfold query in Hr. rewrite Hfn in Hr. cbn in Hr. inversion Hr.
  - intros Hin. apply list_elem_of_singleton in Hin. discriminate.
Qed.

End AdapterProperties.

(** ** The theorems at sample inputs *)

Section Samples.
Import ElasticsearchDB Elasticsearch.

Lemma add_then_exists_witness :
  exists st' : cluster,
    run Sample.eval_script
        (add Sample.db ["t1"; "t2"] [∅; ∅] ["a"; "b"] ;;;
         get Sample.db ["a"; "b"; "c"] ∅) Sample.fresh
    = (Ok ({["a"; "b"]} : gset string), st').
Proof.
  apply (add_then_exists Sample.eval_script Sample.db "t1" "t2" ∅ ∅
           (Sample.embed "t1") (Sample.embed "t2") [] Sample.fresh
           Sample.fresh_index).
  - reflexivity.
  - vm_compute. reflexivity.
  - intros d H. inversion H.
Defined.

(** C4, as the spec has it, fails: an adapter is constructed on an empty
    cluster, two items are added, then [reset] and [count] are called; the
    count raises and does not return 0. *)
Lemma reset_then_count_raises :
  let scenario :=
    db <- __init__ (Some Sample.cfg) (Callable Sample.embedding_fn) (Some 2)
                   (Some "docs") ;;
    add db ["t1"; "t2"] [∅; ∅] ["a"; "b"] ;;;
    reset db ;;;
    count db in
  (run Sample.eval_script scenario ∅).1
  = Err (NotFoundError "index_not_found_exception")
  /\ (run Sample.eval_script scenario ∅).1 <> Ok 0.
Proof.
  intros scenario.
  assert (H : (run Sample.eval_script scenario ∅).1
              = Err (NotFoundError "index_not_found_exception"))
    by (vm_compute; reflexivity).
  split; [exact H|]. rewrite H. discriminate.
Qed.

Lemma add_pairs_up_to_shortest_witness :
  length (add_docs Sample.db ["t1"; "t2"; "t3"] [∅; ∅] ["a"; "b"; "c"; "d"]
            (map Sample.embed ["t1"; "t2"; "t3"])) = 2%nat
  /\ (run Sample.eval_script
          (add Sample.db ["t1"; "t2"; "t3"] [∅; ∅] ["a"; "b"; "c"; "d"])
          Sample.fresh).1 = Ok tt.
Proof.
  pose proof (add_pairs_up_to_shortest Sample.eval_script Sample.db
                ["t1"; "t2"; "t3"] [∅; ∅] ["a"; "b"; "c"; "d"]
                (map Sample.embed ["t1"; "t2"; "t3"]) Sample.fresh
                eq_refl (ex_intro _ Sample.fresh_index eq_refl))
    as (_ & Hlen & _ & Hrun).
  split; [exact Hlen|exact Hrun].
Defined.

Lemma query_returns_top_texts_witness :
  exists docs others : list (string * doc_source),
    run Sample.eval_script (query Sample.db ["q"] 2 ∅) Sample.stocked
    = (Ok (map (fun p => text p.2) docs), Sample.stocked)
    /\ Z.of_nat (length docs) <= 2
    /\ (docs ++ others)%list ≡ₚ
       filter (fun p => matches
                 (ScriptScore (Bool [Exists "text"])
                    (mkScript script_source (Sample.embed "q"))) p)
              Sample.stocked_docs.
Proof.
  destruct (query_returns_top_texts Sample.eval_script Sample.db ["q"] 2 ∅
              (Sample.embed "q") [] Sample.stocked Sample.stocked_index
              eq_refl eq_refl)
    as (docs & others & Hrun & Hlen & _ & _ & _ & _ & Hperm).
  - unfold max_result_window. lia.
  - exists docs, others. split; [exact Hrun|]. split; [exact Hlen|exact Hperm].
Defined.



Lemma query_filter_replaces_default_witness :
  query Sample.db ["q"] 5 {["app_id" := PStr "app"]}
  = Call (Search "docs_2"
            (ScriptScore (Bool [Term "metadata.app_id" (PStr "app")])
                         (mkScript script_source (Sample.embed "q")))
            (SourceFields ["text"]) (Some 5))
         texts_of.
Proof.
  assert (Hw : ({["app_id" := PStr "app"]} : gmap string pyval) !! "app_id"
               = Some (PStr "app")) by (vm_compute; reflexivity).
  apply (proj1 (query_filter_replaces_default Sample.eval_script Sample.db ["q"] 5
                  {["app_id" := PStr "app"]} (PStr "app") Hw)
           (Sample.embed "q") []).
  reflexivity.
Defined.

End Samples.

(** ** Further properties of the adapter *)

Section AdapterReads.
Import ElasticsearchDB Elasticsearch.

Variable eval_script : script -> embedding -> Q.

Local Abbreviation run := (run eval_script).
Local Abbreviation trace := (trace eval_script).

Lemma get_program (self : ElasticsearchDB) (ids : list string)
    (where_ : gmap string pyval) :
  get self ids where_
  = Call (Search (es_index self) (Bool (get_must ids where_)) SourceFalse None)
         (fun docs => Ret (list_to_set (map hit_id docs))).
Proof.
  unfold get, get_must. destruct (where_ !! "app_id"); reflexivity.
Qed.

Lemma filter_match_all (docs : list (string * doc_source)) :
  filter (fun p => matches MatchAll p) docs = docs.
Proof.
  induction docs as [|p docs IH]; [reflexivity|].
  rewrite filter_cons_True by exact I. rewrite IH. reflexivity.
Qed.

Lemma count_run (self : ElasticsearchDB) (st : cluster) (ix : index) :
  st !! es_index self = Some ix ->
  run (count self) st = (Ok (Z.of_nat (length (searchable ix))), st).
Proof.
  intros Hix. unfold count. cbn [Elasticsearch.run handle call].
  rewrite Hix. unfold count_matching. rewrite filter_match_all. reflexivity.
Qed.

Lemma reset_run (self : ElasticsearchDB) (st : cluster) :
  run (reset self) st = (Ok tt, delete (es_index self) st).
Proof.
  cbn. destruct (st !! es_index self) as [ix|] eqn:E.
  - rewrite bool_decide_eq_true_2 by eauto. cbn. rewrite E. reflexivity.
  - rewrite bool_decide_eq_false_2 by (intros [? ?]; congruence).
    cbn. rewrite delete_id by assumption. reflexivity.
Qed.

Lemma run_texts_of (docs : list hit) (st : cluster) :
  (run (texts_of docs) st).2 = st /\ trace (texts_of docs) st = [].
Proof.
  destruct (texts_of_no_call docs) as [[ts ->]|[e ->]]; split; reflexivity.
Qed.

Lemma search_cases (ix : index) (q : query_dsl) (src : source_filter)
    (size : option Z) :
  (exists hits, search eval_script ix q src size = Ok hits)
  \/ (exists msg, search eval_script ix q src size = Err (BadRequestError msg)).
Proof.
  unfold search.
  destruct (_ <? 0); [right; eexists; reflexivity|].
  destruct (_ <? _); [right; eexists; reflexivity|].
  left. eexists. reflexivity.
Qed.


Lemma search_run (index : string) (q : query_dsl) (src : source_filter)
    (size : option Z) (k : list hit -> prog (list string)) (st : cluster) :
  run (Call (Search index q src size) k) st
  = match st !! index with
    | Some ix =>
        match search eval_script ix q src size with
        | Ok hits => run (k hits) st
        | Err e => (Err e, st)
        end
    | None => (Err (NotFoundError "index_not_found_exception"), st)
    end.
Proof.
  cbn [Elasticsearch.run handle]. destruct (st !! index) as [ix|]; reflexivity.
Qed.

Lemma get_run_where (self : ElasticsearchDB) (ids : list string)
    (where_ : gmap string pyval) (st : cluster) (ix : index) :
  st !! es_index self = Some ix ->
  run (get self ids where_) st
  = (Ok (list_to_set
           (map hit_id
              (take 10 (merge_sort by_score
                 (map (make_hit eval_script (Bool (get_must ids where_)) SourceFalse)
                    (filter (fun p => matches (Bool (get_must ids where_)) p)
                            (searchable ix))))))),
     st).
Proof.
  intros Hix. rewrite get_program.
  cbn [Elasticsearch.run handle]. rewrite Hix. reflexivity.
Qed.

Lemma count_after_init (cfg : ElasticsearchDBConfig)
    (fn : list string -> result (list embedding)) (dim : VectorDimensions)
    (name : string) (st : cluster) :
  st !! (name ++ "_" ++ format_dim dim) = None ->
  run (db <- __init__ (Some cfg) (Callable fn) (Some dim) (Some name) ;; count db) st
  = (Ok 0, ensured (name ++ "_" ++ format_dim dim) dim st).
Proof.
  intros Hno. rewrite run_bind, init_run.
  rewrite (count_run _ _ (mkIndex (index_settings_of dim) [] [])); [reflexivity|].
  cbn [es_index]. unfold ensured. rewrite Hno. apply lookup_insert_eq.
Qed.

(** X2: a collection whose index was absent is empty once the adapter is
    constructed: [count] returns 0, [get] returns the empty set for any ids
    and filter, and [query] returns the empty list. *)
Theorem new_collection_is_empty (cfg : ElasticsearchDBConfig)
    (fn : list string -> result (list embedding)) (dim : VectorDimensions)
    (name : string) (st : cluster) :
  st !! (name ++ "_" ++ format_dim dim) = None ->
  let init := __init__ (Some cfg) (Callable fn) (Some dim) (Some name) in
  (run (db <- init ;; count db) st).1 = Ok 0
  /\ (forall (ids : list string) (where_ : gmap string pyval),
        (run (db <- init ;; get db ids where_) st).1 = Ok (∅ : gset string))
  /\ (forall (input_query : list string) (n_results : Z)
             (where_ : gmap string pyval) (qv : embedding) (rest : list embedding),
        fn input_query = Ok (qv :: rest) ->
        0 <= n_results <= max_result_window ->
        (run (db <- init ;; query db input_query n_results where_) st).1 = Ok []).
Proof.
  intros Hno init. subst init.
  assert (Hix : ensured (name ++ "_" ++ format_dim dim) dim st
                !! (name ++ "_" ++ format_dim dim)
                = Some (mkIndex (index_settings_of dim) [] [])).
  { unfold ensured. rewrite Hno. apply lookup_insert_eq. }
  split; [rewrite count_after_init by assumption; reflexivity|].
  split.
  - intros ids where_. rewrite run_bind, init_run.
    erewrite get_run_where by exact Hix. reflexivity.
  - intros input_query n_results where_ qv rest Hfn Hn.
    rewrite run_bind, init_run.
    erewrite query_program by exact Hfn.
    rewrite search_run. cbn [es_index]. rewrite Hix.
    unfold search. change (default default_size (Some n_results)) with n_results.
    destruct (Z.ltb_spec n_results 0) as [Hneg|_]; [lia|].
    destruct (Z.ltb_spec max_result_window n_results) as [Hbig|_]; [lia|].
    cbn [searchable]. rewrite filter_nil. cbn [map].
    change (merge_sort by_score []) with (@nil hit).
    rewrite take_nil. reflexivity.
Qed.

(** X3: [reset] followed by constructing the adapter for the same collection
    again gives an empty collection back: the [count] that follows returns 0,
    whatever the index held before. *)
Theorem reset_then_construct_again (self : ElasticsearchDB)
    (cfg : ElasticsearchDBConfig) (fn : list string -> result (list embedding))
    (dim : VectorDimensions) (name : string) (st : cluster) :
  es_index self = name ++ "_" ++ format_dim dim ->
  (run (reset self ;;;
        db <- __init__ (Some cfg) (Callable fn) (Some dim) (Some name) ;;
        count db) st).1 = Ok 0.
Proof.
  intros Hidx. rewrite run_bind, reset_run.
  rewrite count_after_init; [reflexivity|].
  rewrite <- Hidx. apply lookup_delete_eq.
Qed.

(** X4: [get], [query] and [count] only read: whatever they return or raise,
    the cluster is left as it was, and each sends at most one request. *)
Theorem reads_do_not_write (self : ElasticsearchDB) (ids input_query : list string)
    (n_results : Z) (where_ : gmap string pyval) (st : cluster) :
  ((run (get self ids where_) st).2 = st
   /\ (length (trace (get self ids where_) st) <= 1)%nat)
  /\ ((run (query self input_query n_results where_) st).2 = st
      /\ (length (trace (query self input_query n_results where_) st) <= 1)%nat)
  /\ ((run (count self) st).2 = st
      /\ (length (trace (count self) st) <= 1)%nat).
Proof.
  split; [|split].
  - rewrite get_program. cbn [Elasticsearch.run Elasticsearch.trace handle].
    destruct (st !! es_index self) as [ix|]; [|split; [reflexivity|cbn; lia]].
    destruct (search_cases ix (Bool (get_must ids where_)) SourceFalse None)
      as [[hits ->]|[msg ->]]; split; try reflexivity; cbn; lia.
  - unfold query.
    destruct (embedding_fn self input_query) as [[|qv rest]|e];
      try (split; [reflexivity|cbn; lia]).
    cbn [lift bind]. cbn [Elasticsearch.run Elasticsearch.trace handle call bind].
    destruct (st !! es_index self) as [ix|]; [|split; [reflexivity|cbn; lia]].
    match goal with |- context [search eval_script ix ?q ?s ?n] =>
      destruct (search_cases ix q s n) as [[hits ->]|[msg ->]]
    end; [|split; [reflexivity|cbn; lia]].
    cbn [bind]. destruct (run_texts_of hits st) as [H2 Ht].
    rewrite Ht. split; [exact H2|cbn; lia].
  - unfold count. cbn [Elasticsearch.run Elasticsearch.trace handle call].
    destruct (st !! es_index self) as [ix|]; split; try reflexivity; cbn; lia.
Qed.

(** X5: after [reset] every read of the collection fails until the index is
    created again: [get] raises the engine's index-not-found error, and so
    does [query] once it has its query embedding. *)
Theorem reads_after_reset_raise (self : ElasticsearchDB) (ids input_query : list string)
    (n_results : Z) (where_ : gmap string pyval) (qv : embedding)
    (rest : list embedding) (st : cluster) :
  embedding_fn self input_query = Ok (qv :: rest) ->
  (run (reset self ;;; get self ids where_) st).1
  = Err (NotFoundError "index_not_found_exception")
  /\ (run (reset self ;;; query self input_query n_results where_) st).1
     = Err (NotFoundError "index_not_found_exception").
Proof.
  intros Hfn. rewrite !run_bind, reset_run. split.
  - rewrite get_program. cbn [Elasticsearch.run handle].
    rewrite lookup_delete_eq. reflexivity.
  - rewrite (query_program _ _ _ _ _ _ Hfn), search_run, lookup_delete_eq.
    reflexivity.
Qed.

Lemma filter_all {A : Type} (P : A -> Prop) `{forall x, Decision (P x)}
    (l : list A) :
  (forall x, x ∈ l -> P x) -> filter P l = l.
Proof.
  induction l as [|x l IH]; intros Hl; [reflexivity|].
  rewrite filter_cons_True by (apply Hl; left).
  rewrite IH; [reflexivity|]. intros y Hy. apply Hl. right. exact Hy.
Qed.

Lemma add_docs_index (self : ElasticsearchDB) (documents : list string)
    (metadatas : list (gmap string pyval)) (ids : list string)
    (embs : list embedding) :
  Forall (fun a => _index a = es_index self)
         (add_docs self documents metadatas ids embs).
Proof.
  unfold add_docs. apply List.Forall_map. apply Forall_forall.
  intros [[[id t] m] e] _. reflexivity.
Qed.

Lemma add_docs_ids (self : ElasticsearchDB) (documents : list string)
    (metadatas : list (gmap string pyval)) (ids : list string)
    (embs : list embedding) :
  map _id (add_docs self documents metadatas ids embs)
  = take (length (add_docs self documents metadatas ids embs)) ids.
Proof.
  unfold add_docs. revert documents metadatas embs.
  induction ids as [|id ids IH]; intros documents metadatas embs; [reflexivity|].
  destruct documents as [|t documents]; [reflexivity|].
  destruct metadatas as [|m metadatas]; [reflexivity|].
  destruct embs as [|e embs]; [reflexivity|].
  cbn [zip4 map length take _id]. rewrite IH. reflexivity.
Qed.

Lemma add_docs_NoDup (self : ElasticsearchDB) (documents : list string)
    (metadatas : list (gmap string pyval)) (ids : list string)
    (embs : list embedding) :
  NoDup ids -> NoDup (map _id (add_docs self documents metadatas ids embs)).
Proof.
  intros Hnd. rewrite add_docs_ids.
  eapply sublist_NoDup; [exact Hnd|apply sublist_take].
Qed.

(** A bulk write whose actions all go to one index that exists. *)
Lemma bulk_same_index (i : string) (actions : list action) (st : cluster)
    (ix : index) :
  Forall (fun a => _index a = i) actions ->
  st !! i = Some ix ->
  foldl index_action st actions !! i
  = Some (mkIndex (mappings ix) (written actions (stored ix)) (searchable ix))
  /\ (forall j, j <> i -> foldl index_action st actions !! j = st !! j).
Proof.
  intros Hall. revert st ix.
  induction Hall as [|a actions Ha _ IH]; intros st ix Hix.
  { cbn. destruct ix; split; [exact Hix|reflexivity]. }
  destruct a as [i' id d]. cbn in Ha. subst i'.
  cbn [foldl]. rewrite (index_action_present _ _ _ _ _ Hix).
  destruct (IH _ (mkIndex (mappings ix) (upsert id d (stored ix)) (searchable ix))
              (lookup_insert_eq st i _)) as [H1 H2].
  split; [exact H1|].
  intros j Hj. rewrite (H2 j Hj). apply lookup_insert_ne. congruence.
Qed.

Lemma add_run_written (self : ElasticsearchDB) (documents : list string)
    (metadatas : list (gmap string pyval)) (ids : list string)
    (embs : list embedding) (st : cluster) (ix : index) :
  embedding_fn self documents = Ok embs ->
  st !! es_index self = Some ix ->
  run (add self documents metadatas ids) st
  = (Ok tt,
     <[es_index self :=
         let docs := written (add_docs self documents metadatas ids embs) (stored ix) in
         mkIndex (mappings ix) docs docs]> st).
Proof.
  intros Hfn Hix.
  destruct (bulk_same_index _ _ _ _
              (add_docs_index self documents metadatas ids embs) Hix) as [H1 H2].
  rewrite (add_run eval_script _ _ _ _ _ _ _ Hfn H1). f_equal.
  apply map_eq. intros j. destruct (decide (j = es_index self)) as [->|Hj].
  - rewrite !lookup_insert_eq. reflexivity.
  - rewrite !lookup_insert_ne by congruence. apply H2. exact Hj.
Qed.

(** Distinct ids: the documents under the written ids make room for the new
    ones, which go to the end in the order written. *)
Lemma written_distinct (actions : list action) (docs : list (string * doc_source)) :
  NoDup (map _id actions) ->
  written actions docs
  = (filter (fun p => p.1 ∉ map _id actions) docs
     ++ map (fun a => (_id a, _source a)) actions)%list.
Proof.
  revert docs. induction actions as [|a actions IH]; intros docs Hnd.
  { cbn. rewrite filter_all, app_nil_r; [reflexivity|].
    intros x _ Hx. inversion Hx. }
  cbn [map] in Hnd. apply NoDup_cons in Hnd as [Hnotin Hnd].
  change (written (a :: actions) docs)
    with (written actions (upsert (_id a) (_source a) docs)).
  rewrite (IH _ Hnd). unfold upsert. rewrite filter_app.
  rewrite list_filter_filter.
  rewrite (filter_all _ [(_id a, _source a)]).
  2:{ intros x Hx. apply list_elem_of_singleton in Hx. subst x. exact Hnotin. }
  cbn [map]. rewrite <- app_assoc. f_equal.
  apply list_filter_iff. intros [id d]. cbn. rewrite not_elem_of_cons. tauto.
Qed.

(** X6: [add] is an upsert. On a cluster that holds the index, with distinct
    ids, it returns normally and leaves in the index, stored and searchable
    alike, the earlier documents whose id was not written, in their order,
    followed by the records written; the mapping and every other index are
    as before. *)
Theorem add_upserts (self : ElasticsearchDB) (documents : list string)
    (metadatas : list (gmap string pyval)) (ids : list string)
    (embs : list embedding) (st : cluster) (ix : index) :
  embedding_fn self documents = Ok embs ->
  st !! es_index self = Some ix ->
  NoDup ids ->
  let records := add_docs self documents metadatas ids embs in
  let docs := (filter (fun p => p.1 ∉ map _id records) (stored ix)
               ++ map (fun a => (_id a, _source a)) records)%list in
  run (add self documents metadatas ids) st
  = (Ok tt, <[es_index self := mkIndex (mappings ix) docs docs]> st).
Proof.
  intros Hfn Hix Hnd records docs.
  rewrite (add_run_written _ _ _ _ _ _ _ Hfn Hix). cbn zeta.
  fold records. rewrite (written_distinct records (stored ix)).
  - reflexivity.
  - apply add_docs_NoDup. exact Hnd.
Qed.

(** X7: adding the same batch twice is the same as adding it once (ids
    distinct): the second [add] overwrites the records of the first, and the
    cluster, the count included, is as after the first. *)
Theorem add_twice_is_add_once (self : ElasticsearchDB) (documents : list string)
    (metadatas : list (gmap string pyval)) (ids : list string)
    (embs : list embedding) (st : cluster) (ix : index) :
  embedding_fn self documents = Ok embs ->
  st !! es_index self = Some ix ->
  NoDup ids ->
  run (add self documents metadatas ids ;;; add self documents metadatas ids) st
  = run (add self documents metadatas ids) st
  /\ (run (add self documents metadatas ids ;;;
           add self documents metadatas ids ;;; count self) st).1
     = (run (add self documents metadatas ids ;;; count self) st).1.
Proof.
  intros Hfn Hix Hnd.
  set (records := add_docs self documents metadatas ids embs).
  set (docs := written records (stored ix)).
  set (st1 := <[es_index self := mkIndex (mappings ix) docs docs]> st).
  assert (H1 : run (add self documents metadatas ids) st = (Ok tt, st1))
    by apply (add_run_written _ _ _ _ _ _ _ Hfn Hix).
  assert (H2 : run (add self documents metadatas ids) st1 = (Ok tt, st1)).
  { erewrite add_run_written; [|exact Hfn|apply lookup_insert_eq].
    cbn zeta. cbn [mappings stored]. fold records. unfold st1.
    rewrite insert_insert_eq.
    assert (Hr : NoDup (map _id records)) by (apply add_docs_NoDup; exact Hnd).
    assert (Hsame : written records docs = docs); [|rewrite Hsame; reflexivity].
    unfold docs. rewrite !(written_distinct records) by exact Hr.
    rewrite filter_app, list_filter_filter.
    rewrite (filter_none _ (map _ records)).
    2:{ intros [id d] Hin Hnot. cbn in Hnot. apply Hnot.
        change (map ?f ?l) with (f <$> l) in Hin.
        apply list_elem_of_fmap in Hin as (a & [= -> ->] & Ha).
        change (map ?f ?l) with (f <$> l).
        apply list_elem_of_fmap. exists a. split; [reflexivity|exact Ha]. }
    rewrite app_nil_r.
    rewrite (list_filter_iff _ (fun p => p.1 ∉ map _id records)) by tauto.
    reflexivity. }
  split.
  - rewrite run_bind, H1. cbn beta iota. rewrite H2. reflexivity.
  - rewrite !run_bind, H1. cbn beta iota. rewrite run_bind, H2. reflexivity.
Qed.

Lemma ids_of_filter {P : string * doc_source -> Prop} `{forall x, Decision (P x)}
    (docs : list (string * doc_source)) :
  NoDup (map fst docs) -> NoDup (map fst (filter P docs)).
Proof.
  induction docs as [|p docs IH]; intros Hnd; [constructor|].
  cbn [map] in Hnd. apply NoDup_cons in Hnd as [Hp Hnd].
  destruct (decide (P p)) as [HP|HP].
  - rewrite filter_cons_True by exact HP. cbn [map]. apply NoDup_cons. split.
    + intros Hin. apply Hp.
      change (map ?f ?l) with (f <$> l) in Hin |- *.
      apply list_elem_of_fmap in Hin as (q & Hq & Hin).
      apply list_elem_of_filter in Hin as [_ Hin].
      apply list_elem_of_fmap. exists q. split; assumption.
    + apply IH. exact Hnd.
  - rewrite filter_cons_False by exact HP. apply IH. exact Hnd.
Qed.

Lemma upsert_ids_unique (id : string) (d : doc_source)
    (docs : list (string * doc_source)) :
  NoDup (map fst docs) -> NoDup (map fst (upsert id d docs)).
Proof.
  intros Hnd. unfold upsert. rewrite map_app. apply NoDup_app.
  split; [apply ids_of_filter; exact Hnd|]. split.
  - intros x Hx Hin. cbn in Hin. apply list_elem_of_singleton in Hin. subst x.
    change (map ?f ?l) with (f <$> l) in Hx.
    apply list_elem_of_fmap in Hx as ([id' d'] & Heq & Hx).
    apply list_elem_of_filter in Hx as [Hne _]. cbn in *. congruence.
  - cbn. apply NoDup_singleton.
Qed.

Lemma written_ids_unique (actions : list action)
    (docs : list (string * doc_source)) :
  NoDup (map fst docs) -> NoDup (map fst (written actions docs)).
Proof.
  revert docs. induction actions as [|a actions IH]; intros docs Hnd; [exact Hnd|].
  apply (IH (upsert (_id a) (_source a) docs)). apply upsert_ids_unique. exact Hnd.
Qed.

(** X8: [add] keeps the ids of an index unique: if no two documents of the
    index share an id before, none do after, whatever the batch (repeated
    ids and sequences of unequal length included), and what is stored is
    what is searchable. *)
Theorem add_keeps_ids_unique (self : ElasticsearchDB) (documents : list string)
    (metadatas : list (gmap string pyval)) (ids : list string)
    (embs : list embedding) (st : cluster) (ix : index) :
  embedding_fn self documents = Ok embs ->
  st !! es_index self = Some ix ->
  NoDup (map fst (stored ix)) ->
  exists ix' : index,
    (run (add self documents metadatas ids) st).2 !! es_index self = Some ix'
    /\ NoDup (map fst (stored ix'))
    /\ searchable ix' = stored ix'
    /\ mappings ix' = mappings ix.
Proof.
  intros Hfn Hix Hnd.
  rewrite (add_run_written _ _ _ _ _ _ _ Hfn Hix). cbn zeta. cbn [snd].
  eexists. split; [apply lookup_insert_eq|]. cbn [stored searchable mappings].
  split; [apply written_ids_unique; exact Hnd|]. split; reflexivity.
Qed.

(** X9: after an [add] of records under distinct ids none of which is in the
    index, [count] returns the number of documents stored before plus the
    number of records written, which is the length of the shortest of the
    four sequences; documents written earlier and not yet refreshed are
    counted too. *)
Theorem add_then_count (self : ElasticsearchDB) (documents : list string)
    (metadatas : list (gmap string pyval)) (ids : list string)
    (embs : list embedding) (st : cluster) (ix : index) :
  embedding_fn self documents = Ok embs ->
  st !! es_index self = Some ix ->
  NoDup ids ->
  (forall id d, id ∈ ids -> (id, d) ∉ stored ix) ->
  (run (add self documents metadatas ids ;;; count self) st).1
  = Ok (Z.of_nat (length (stored ix)
                  + Nat.min (Nat.min (length documents) (length metadatas))
                            (Nat.min (length ids) (length embs)))).
Proof.
  intros Hfn Hix Hnd Hfresh.
  rewrite run_bind, (add_run_written _ _ _ _ _ _ _ Hfn Hix). cbn zeta.
  erewrite count_run by apply lookup_insert_eq. cbn [fst searchable].
  set (records := add_docs self documents metadatas ids embs).
  rewrite (written_distinct records) by (apply add_docs_NoDup; exact Hnd).
  rewrite filter_all.
  - rewrite length_app, length_map. unfold records, add_docs.
    rewrite length_map, zip4_length. do 2 f_equal. lia.
  - intros [id d] Hin Hid. cbn in Hid. apply (Hfresh id d); [|exact Hin].
    unfold records in Hid. rewrite add_docs_ids in Hid.
    apply subseteq_take in Hid. exact Hid.
Qed.

Lemma size_list_to_set_le (l : list string) :
  (size (list_to_set l : gset string) <= length l)%nat.
Proof.
  induction l as [|x l IH]; [rewrite list_to_set_nil, size_empty; cbn; lia|].
  rewrite list_to_set_cons, size_union_alt, size_singleton. cbn [length].
  assert (size (list_to_set l ∖ {[x]} : gset string)
          <= size (list_to_set l : gset string))%nat
    by (apply subseteq_size, subseteq_difference_l; reflexivity).
  lia.
Qed.

Lemma field_app_id (d : doc_source) :
  field_value "metadata.app_id" d = metadata d !! "app_id".
Proof. reflexivity. Qed.

Lemma matches_get (ids : list string) (where_ : gmap string pyval)
    (id : string) (d : doc_source) :
  matches (Bool (get_must ids where_)) (id, d)
  <-> id ∈ ids
      /\ (forall v, where_ !! "app_id" = Some v -> metadata d !! "app_id" = Some v).
Proof.
  unfold get_must. cbn [matches forallb clause_matches fst snd].
  destruct (where_ !! "app_id") as [v|]; cbn [forallb clause_matches].
  - rewrite field_app_id, andb_true_r, andb_True, !bool_decide_spec.
    split.
    + intros [Hid Hv]. split; [exact Hid|]. intros v' [= <-]. exact Hv.
    + intros [Hid Hv]. split; [exact Hid|]. apply Hv. reflexivity.
  - rewrite andb_true_r, bool_decide_spec.
    split; [intros Hid; split; [exact Hid|discriminate]|intros [Hid _]; exact Hid].
Qed.

(** X10: [get] on a cluster that holds the index returns only ids that were
    asked for and belong to a searchable document, one that carries the
    filter's app id when the filter has one; it returns all of them as long
    as at most ten documents qualify. *)
Theorem get_finds_the_stored_ids (self : ElasticsearchDB) (ids : list string)
    (where_ : gmap string pyval) (st : cluster) (ix : index) :
  st !! es_index self = Some ix ->
  exists found : gset string,
    run (get self ids where_) st = (Ok found, st)
    /\ (forall id, id ∈ found ->
          id ∈ ids
          /\ exists d, (id, d) ∈ searchable ix
                       /\ (forall v, where_ !! "app_id" = Some v ->
                                     metadata d !! "app_id" = Some v))
    /\ ((length (get_matching ids where_ (searchable ix)) <= 10)%nat ->
        forall id d,
          (id, d) ∈ searchable ix -> id ∈ ids ->
          (forall v, where_ !! "app_id" = Some v -> metadata d !! "app_id" = Some v) ->
          id ∈ found).
Proof.
  intros Hix. eexists. split; [apply (get_run_where _ _ _ _ _ Hix)|].
  fold (get_matching ids where_ (searchable ix)).
  set (matching := get_matching ids where_ (searchable ix)).
  set (mk := make_hit eval_script (Bool (get_must ids where_)) SourceFalse).
  pose proof (merge_sort_Permutation by_score (map mk matching)) as Hperm.
  split.
  - intros id Hid. apply elem_of_list_to_set in Hid.
    change (map ?f ?l) with (f <$> l) in Hid.
    apply list_elem_of_fmap in Hid as (h & -> & Hh).
    apply subseteq_take in Hh. rewrite Hperm in Hh.
    change (map ?f ?l) with (f <$> l) in Hh.
    apply list_elem_of_fmap in Hh as ([id d] & -> & Hp).
    apply list_elem_of_filter in Hp as [Hm Hp].
    apply matches_get in Hm as [Hin Hv]. cbn.
    split; [exact Hin|]. exists d. split; assumption.
  - intros Hlen id d Hin Hid Hv. apply elem_of_list_to_set.
    rewrite take_ge by (rewrite (Permutation_length Hperm), length_map; exact Hlen).
    change (map hit_id ?l) with (hit_id <$> l).
    apply list_elem_of_fmap. exists (mk (id, d)). split; [reflexivity|].
    rewrite Hperm. change (map ?f ?l) with (f <$> l).
    apply list_elem_of_fmap. exists (id, d). split; [reflexivity|].
    apply list_elem_of_filter. split; [|exact Hin].
    apply matches_get. split; assumption.
Qed.

(** X11: [get] never returns more than ten ids, because its search carries
    no size: when more than ten searchable documents (of distinct ids)
    qualify, at least one id that was asked for and is stored is missing
    from the answer. *)
Theorem get_is_capped_at_ten (self : ElasticsearchDB) (ids : list string)
    (where_ : gmap string pyval) (st : cluster) (ix : index) :
  st !! es_index self = Some ix ->
  exists found : gset string,
    run (get self ids where_) st = (Ok found, st)
    /\ (size found <= 10)%nat
    /\ (NoDup (map fst (searchable ix)) ->
        (10 < length (get_matching ids where_ (searchable ix)))%nat ->
        exists id d,
          (id, d) ∈ searchable ix /\ id ∈ ids
          /\ (forall v, where_ !! "app_id" = Some v -> metadata d !! "app_id" = Some v)
          /\ id ∉ found).
Proof.
  intros Hix. eexists. split; [apply (get_run_where _ _ _ _ _ Hix)|].
  fold (get_matching ids where_ (searchable ix)).
  set (matching := get_matching ids where_ (searchable ix)).
  set (hits := take 10 _).
  assert (Hsize : (size (list_to_set (map hit_id hits) : gset string) <= 10)%nat).
  { etransitivity; [apply size_list_to_set_le|].
    rewrite length_map. unfold hits. rewrite length_take. lia. }
  split; [exact Hsize|].
  intros Hnd Hmany.
  destruct (decide (Forall (fun p : string * doc_source =>
                      p.1 ∈ (list_to_set (map hit_id hits) : gset string)) matching))
    as [Hall|Hnot].
  - exfalso.
    assert (Hids : NoDup (map fst matching)) by (apply ids_of_filter; exact Hnd).
    assert (Hsub : (list_to_set (map fst matching) : gset string)
                   ⊆ list_to_set (map hit_id hits)).
    { intros id Hid. apply elem_of_list_to_set in Hid.
      change (map ?f ?l) with (f <$> l) in Hid.
      apply list_elem_of_fmap in Hid as (p & -> & Hp).
      rewrite Forall_forall in Hall. apply Hall. exact Hp. }
    apply subseteq_size in Hsub.
    rewrite (size_list_to_set _ Hids), length_map in Hsub. lia.
  - apply not_Forall_Exists in Hnot; [|intros x; apply _].
    apply Exists_exists in Hnot as ([id d] & Hp & Hn).
    apply list_elem_of_filter in Hp as [Hm Hp].
    apply matches_get in Hm as [Hid Hv].
    exists id, d. repeat split; assumption.
Qed.

(** What [query] returns on a cluster that holds the index: the texts of the
    first [n_results] matching documents, best score first. *)
Lemma query_run_sorted (self : ElasticsearchDB) (input_query : list string)
    (n_results : Z) (where_ : gmap string pyval) (qv : embedding)
    (rest : list embedding) (st : cluster) (ix : index) :
  embedding_fn self input_query = Ok (qv :: rest) ->
  st !! es_index self = Some ix ->
  0 <= n_results <= max_result_window ->
  exists sorted : list (string * doc_source),
    sorted ≡ₚ filter (fun p => matches (query_of where_ qv) p) (searchable ix)
    /\ run (query self input_query n_results where_) st
       = (Ok (map (fun p => text p.2) (take (Z.to_nat n_results) sorted)), st).
Proof.
  intros Hfn Hix Hn.
  rewrite (query_program _ _ _ _ _ _ Hfn). fold (query_of where_ qv).
  rewrite search_run, Hix. unfold search.
  change (default default_size (Some n_results)) with n_results.
  destruct (Z.ltb_spec n_results 0) as [Hneg|_]; [lia|].
  destruct (Z.ltb_spec max_result_window n_results) as [Hbig|_]; [lia|].
  set (matching := filter (fun p => matches (query_of where_ qv) p) (searchable ix)).
  set (mk := make_hit eval_script (query_of where_ qv) (SourceFields ["text"])).
  pose proof (merge_sort_Permutation by_score (map mk matching)) as Hperm.
  destruct (Permutation_map_inv _ _ Hperm) as (sorted & Heq & Hps).
  exists sorted. split; [symmetry; exact Hps|].
  rewrite Heq, firstn_map. unfold mk.
  rewrite (texts_of_text_hits eval_script). reflexivity.
Qed.

Lemma matches_tagged (app_id : pyval) (s : script) (p : string * doc_source) :
  matches (ScriptScore (Bool [Term "metadata.app_id" app_id]) s) p
  <-> metadata p.2 !! "app_id" = Some app_id.
Proof.
  cbn [matches forallb clause_matches]. rewrite field_app_id, andb_true_r.
  apply bool_decide_spec.
Qed.

Lemma matches_any_text (s : script) (p : string * doc_source) :
  matches (ScriptScore (Bool [Exists "text"]) s) p.
Proof. exact I. Qed.

(** X12: with "app_id" in the filter, [query] answers from the documents
    tagged with that app id and from no other: every text it returns is the
    text of a searchable document whose metadata has the app id, and it
    returns as many texts as the limit allows and such documents exist. *)
Theorem query_filter_isolates_app (self : ElasticsearchDB)
    (input_query : list string) (n_results : Z) (where_ : gmap string pyval)
    (app_id : pyval) (qv : embedding) (rest : list embedding) (st : cluster)
    (ix : index) :
  where_ !! "app_id" = Some app_id ->
  embedding_fn self input_query = Ok (qv :: rest) ->
  st !! es_index self = Some ix ->
  0 <= n_results <= max_result_window ->
  exists docs : list (string * doc_source),
    run (query self input_query n_results where_) st
    = (Ok (map (fun p => text p.2) docs), st)
    /\ (forall p, p ∈ docs ->
          p ∈ searchable ix /\ metadata p.2 !! "app_id" = Some app_id)
    /\ length docs
       = Nat.min (Z.to_nat n_results)
           (length (filter (fun p => metadata p.2 !! "app_id" = Some app_id)
                           (searchable ix))).
Proof.
  intros Hw Hfn Hix Hn.
  destruct (query_run_sorted self input_query n_results where_ qv rest st ix
              Hfn Hix Hn) as (sorted & Hperm & Hrun).
  unfold query_of in Hperm. rewrite Hw in Hperm.
  rewrite (list_filter_iff _ (fun p => metadata p.2 !! "app_id" = Some app_id))
    in Hperm by (intros p; apply matches_tagged).
  exists (take (Z.to_nat n_results) sorted). split; [exact Hrun|]. split.
  - intros p Hp. apply subseteq_take in Hp. rewrite Hperm in Hp.
    apply list_elem_of_filter in Hp as [Htag Hin]. split; assumption.
  - rewrite length_take, (Permutation_length Hperm). reflexivity.
Qed.

(** X13: without "app_id" in the filter, [query] ranks every searchable
    document of the collection: it returns as many texts as the limit allows
    and documents exist, and when the limit is not below the number of
    documents it returns the text of each of them. *)
Theorem query_without_filter_ranks_all (self : ElasticsearchDB)
    (input_query : list string) (n_results : Z) (where_ : gmap string pyval)
    (qv : embedding) (rest : list embedding) (st : cluster) (ix : index) :
  where_ !! "app_id" = None ->
  embedding_fn self input_query = Ok (qv :: rest) ->
  st !! es_index self = Some ix ->
  0 <= n_results <= max_result_window ->
  exists texts : list string,
    run (query self input_query n_results where_) st = (Ok texts, st)
    /\ length texts = Nat.min (Z.to_nat n_results) (length (searchable ix))
    /\ ((length (searchable ix) <= Z.to_nat n_results)%nat ->
        texts ≡ₚ map (fun p => text p.2) (searchable ix)).
Proof.
  intros Hw Hfn Hix Hn.
  destruct (query_run_sorted self input_query n_results where_ qv rest st ix
              Hfn Hix Hn) as (sorted & Hperm & Hrun).
  unfold query_of in Hperm. rewrite Hw in Hperm.
  rewrite filter_all in Hperm by (intros p _; apply matches_any_text).
  eexists. split; [exact Hrun|]. split.
  - rewrite length_map, length_take, (Permutation_length Hperm). reflexivity.
  - intros Hlen. rewrite take_ge by (rewrite (Permutation_length Hperm); exact Hlen).
    apply Permutation_map. exact Hperm.
Qed.

(** X14: a limit outside the result window is not caught by [query]: it
    goes to the engine as it is, and a negative limit or one above 10000
    comes back as a bad-request error. *)
Theorem query_limit_outside_window (self : ElasticsearchDB)
    (input_query : list string) (n_results : Z) (where_ : gmap string pyval)
    (qv : embedding) (rest : list embedding) (st : cluster) (ix : index) :
  embedding_fn self input_query = Ok (qv :: rest) ->
  st !! es_index self = Some ix ->
  n_results < 0 \/ max_result_window < n_results ->
  trace (query self input_query n_results where_) st
  = [Search (es_index self) (query_of where_ qv) (SourceFields ["text"])
       (Some n_results)]
  /\ exists msg,
       run (query self input_query n_results where_) st
       = (Err (BadRequestError msg), st).
Proof.
  intros Hfn Hix Hn.
  rewrite (query_program _ _ _ _ _ _ Hfn). fold (query_of where_ qv).
  cbn [Elasticsearch.trace Elasticsearch.run handle]. rewrite Hix. unfold search.
  change (default default_size (Some n_results)) with n_results.
  destruct (Z.ltb_spec n_results 0) as [Hneg|Hpos].
  - split; [reflexivity|eexists; reflexivity].
  - destruct (Z.ltb_spec max_result_window n_results) as [Hbig|Hsmall]; [|lia].
    split; [reflexivity|eexists; reflexivity].
Qed.

(** X15: when the embedding function raises, [add] and [query] raise the
    same error, and when it gives [query] no vector at all (as for an empty
    list of queries) [query] raises an [IndexError]; in each case nothing is
    sent to the engine and the cluster is as it was. *)
Theorem embedding_failures_send_nothing (self : ElasticsearchDB)
    (documents : list string) (metadatas : list (gmap string pyval))
    (ids input_query : list string) (n_results : Z)
    (where_ : gmap string pyval) (st : cluster) :
  (forall e, embedding_fn self documents = Err e ->
     run (add self documents metadatas ids) st = (Err e, st)
     /\ trace (add self documents metadatas ids) st = [])
  /\ (forall e, embedding_fn self input_query = Err e ->
        run (query self input_query n_results where_) st = (Err e, st)
        /\ trace (query self input_query n_results where_) st = [])
  /\ (embedding_fn self input_query = Ok [] ->
        run (query self input_query n_results where_) st
        = (Err (IndexError "list index out of range"), st)
        /\ trace (query self input_query n_results where_) st = []).
Proof.
  split; [|split].
  - intros e He. unfold add. rewrite He. split; reflexivity.
  - intros e He. unfold query. rewrite He. split; reflexivity.
  - intros He. unfold query. rewrite He. split; reflexivity.
Qed.

Lemma bulk_other_index (i j : string) (actions : list action) (st : cluster) :
  Forall (fun a => _index a = i) actions ->
  j <> i ->
  foldl index_action st actions !! j = st !! j.
Proof.
  intros Hall Hj. revert st.
  induction Hall as [|a actions Ha _ IH]; intros st; [reflexivity|].
  cbn [foldl]. rewrite IH. unfold index_action.
  apply lookup_insert_ne. congruence.
Qed.

(** X16: [add] and [reset] write to the index of their own collection only:
    every other index of the cluster, with its mapping and documents, is
    after the call what it was before, whether the call returns or raises. *)
Theorem writes_stay_in_own_index (self : ElasticsearchDB)
    (documents : list string) (metadatas : list (gmap string pyval))
    (ids : list string) (st : cluster) (j : string) :
  j <> es_index self ->
  (run (add self documents metadatas ids) st).2 !! j = st !! j
  /\ (run (reset self) st).2 !! j = st !! j.
Proof.
  intros Hj. split.
  - unfold add. destruct (embedding_fn self documents) as [embs|e]; [|reflexivity].
    cbn [lift bind call]. cbn [Elasticsearch.run handle].
    pose proof (bulk_other_index (es_index self) j
                  (add_docs self documents metadatas ids embs) st
                  (add_docs_index self documents metadatas ids embs) Hj) as Hb.
    destruct (foldl index_action st _ !! es_index self) as [ix|];
      cbn [snd]; [|exact Hb].
    rewrite lookup_insert_ne by congruence. exact Hb.
  - rewrite reset_run. cbn [snd]. apply lookup_delete_ne. congruence.
Qed.

(** X17: an item added with its metadata is found by [get] under a filter
    exactly when the filter has no "app_id" or the metadata of the item
    carries the same app id; under the app id of another application the
    answer is the empty set. *)
Theorem add_then_get_by_app (self : ElasticsearchDB) (t id : string)
    (m where_ : gmap string pyval) (e : embedding) (rest : list embedding)
    (st : cluster) (ix : index) :
  embedding_fn self [t] = Ok (e :: rest) ->
  st !! es_index self = Some ix ->
  let tagged :=
    match where_ !! "app_id" with
    | Some app_id => bool_decide (m !! "app_id" = Some app_id)
    | None => true
    end in
  (run (add self [t] [m] [id] ;;; get self [id] where_) st).1
  = Ok (if tagged then {[id]} else ∅ : gset string).
Proof.
  intros Hfn Hix tagged.
  rewrite run_bind, (add_run_written _ _ _ _ _ _ _ Hfn Hix). cbn zeta.
  erewrite get_run_where by apply lookup_insert_eq.
  cbn [fst searchable add_docs zip4 map written foldl _id _source].
  unfold upsert. rewrite filter_app.
  rewrite (filter_none _ (filter _ (stored ix))).
  2:{ intros [id' d] Hin Hm. apply list_elem_of_filter in Hin as [Hne _].
      apply matches_get in Hm as [Hid _]. apply list_elem_of_singleton in Hid.
      cbn in Hne. congruence. }
  rewrite app_nil_l.
  assert (Hdec : matches (Bool (get_must [id] where_)) (id, mkSource t m e)
                 <-> tagged).
  { rewrite matches_get. cbn [metadata]. unfold tagged.
    destruct (where_ !! "app_id") as [v|].
    - rewrite bool_decide_spec. split.
      + intros [_ Hv]. apply Hv. reflexivity.
      + intros Hv. split; [left|]. intros v' [= <-]. exact Hv.
    - split; [intros _; exact I|intros _; split; [left|discriminate]]. }
  destruct tagged.
  - rewrite filter_cons_True by (apply Hdec; exact I).
    rewrite filter_nil. cbn. rewrite (right_id_L ∅ (∪)). reflexivity.
  - rewrite filter_cons_False by (intros Hm; apply Hdec in Hm; exact Hm).
    rewrite filter_nil. reflexivity.
Qed.

(** X18: the comprehension that ends [query] gives the texts of the hits in
    the order of the response, whatever the response; at the first hit that
    comes without [_source], or whose [_source] has no text, it raises a
    [KeyError] for the missing key. *)
Theorem texts_follow_the_response (pre post : list hit) (ts : list string)
    (h : hit) :
  Forall2 (fun h t => exists src, hit_source h = Some src /\ hit_text src = Some t)
          pre ts ->
  texts_of pre = Ret ts
  /\ (hit_source h = None ->
      texts_of (pre ++ h :: post) = Raise (KeyError "_source"))
  /\ (forall src, hit_source h = Some src -> hit_text src = None ->
      texts_of (pre ++ h :: post) = Raise (KeyError "text")).
Proof.
  intros Hpre. split; [apply texts_of_hits; exact Hpre|].
  induction Hpre as [|h0 t pre ts (src0 & Hs & Ht) _ IH].
  - split.
    + intros Hnone. cbn. unfold source_text. rewrite Hnone. reflexivity.
    + intros src Hsome Hnone. cbn. unfold source_text. rewrite Hsome, Hnone.
      reflexivity.
  - destruct IH as [IH1 IH2]. split.
    + intros Hnone. cbn [app texts_of]. unfold source_text at 1.
      rewrite Hs, Ht. cbn [bind]. rewrite (IH1 Hnone). reflexivity.
    + intros src Hsome Hnone. cbn [app texts_of]. unfold source_text at 1.
      rewrite Hs, Ht. cbn [bind]. rewrite (IH2 src Hsome Hnone). reflexivity.
Qed.

End AdapterReads.

(** ** Index names *)

Section IndexNames.
Import Stdlib.Strings.Ascii.
Import ElasticsearchDB Elasticsearch.

Lemma no_underscore_app (s1 s2 : string) :
  no_underscore (s1 ++ s2) = no_underscore s1 && no_underscore s2.
Proof.
  induction s1 as [|c s1 IH]; [reflexivity|].
  change (String c s1 ++ s2) with (String c (s1 ++ s2)).
  cbn [no_underscore]. rewrite IH. apply andb_assoc.
Qed.

Lemma no_underscore_digits (x : N) (s : string) :
  no_underscore s = true -> no_underscore (pretty_N_go x s) = true.
Proof.
  revert s. induction (N.lt_wf_0 x) as [x _ IH]; intros s Hs.
  destruct (decide (x = 0%N)) as [->|Hx]; [rewrite pretty_N_go_0; exact Hs|].
  rewrite pretty_N_go_step by lia. apply IH.
  - apply N.div_lt; lia.
  - cbn [no_underscore]. rewrite Hs, andb_true_r.
    unfold pretty_N_char. repeat case_match; reflexivity.
Qed.

Lemma no_underscore_format_dim (d : VectorDimensions) :
  no_underscore (format_dim d) = true.
Proof.
  unfold format_dim, pretty, pretty_Z.
  destruct d as [|p|p]; [reflexivity| |].
  - unfold pretty, pretty_positive, pretty, pretty_N.
    case_decide; [reflexivity|]. apply no_underscore_digits. reflexivity.
  - rewrite no_underscore_app.
    unfold pretty, pretty_positive, pretty, pretty_N.
    case_decide; [reflexivity|].
    rewrite no_underscore_digits by reflexivity. reflexivity.
Qed.

(** The last underscore of an index name splits it. *)
Lemma split_at_last_underscore (s1 s2 p1 p2 : string) :
  no_underscore p1 = true -> no_underscore p2 = true ->
  s1 ++ "_" ++ p1 = s2 ++ "_" ++ p2 -> s1 = s2 /\ p1 = p2.
Proof.
  intros H1 H2. revert s2.
  induction s1 as [|c s1 IH]; intros [|c' s2] Heq.
  - change (String "_"%char p1 = String "_"%char p2) in Heq.
    injection Heq as Heq. split; [reflexivity|exact Heq].
  - change (String "_"%char p1 = String c' (s2 ++ "_" ++ p2)) in Heq.
    injection Heq as _ Heq. exfalso. rewrite Heq in H1.
    rewrite no_underscore_app in H1.
    change (no_underscore ("_" ++ p2)) with false in H1.
    rewrite andb_false_r in H1. discriminate.
  - change (String c (s1 ++ "_" ++ p1) = String "_"%char p2) in Heq.
    injection Heq as _ Heq. exfalso. rewrite <- Heq in H2.
    rewrite no_underscore_app in H2.
    change (no_underscore ("_" ++ p1)) with false in H2.
    rewrite andb_false_r in H2. discriminate.
  - change (String c (s1 ++ "_" ++ p1) = String c' (s2 ++ "_" ++ p2)) in Heq.
    injection Heq as -> Heq. destruct (IH _ Heq) as [-> ->]. split; reflexivity.
Qed.

Variable eval_script : script -> embedding -> Q.

(** X19: the index name tells the collection: two adapters that were
    constructed work on the same index exactly when they were given the same
    collection name and the same vector dimension, underscores in the names
    notwithstanding. *)
Theorem index_name_tells_collection (cfg1 cfg2 : ElasticsearchDBConfig)
    (fn1 fn2 : list string -> result (list embedding))
    (dim1 dim2 : VectorDimensions) (name1 name2 : string) (st1 st2 : cluster)
    (db1 db2 : ElasticsearchDB) :
  (run eval_script (__init__ (Some cfg1) (Callable fn1) (Some dim1) (Some name1)) st1).1
  = Ok db1 ->
  (run eval_script (__init__ (Some cfg2) (Callable fn2) (Some dim2) (Some name2)) st2).1
  = Ok db2 ->
  (es_index db1 = es_index db2 <-> name1 = name2 /\ dim1 = dim2).
Proof.
  rewrite !init_run. cbn [fst]. intros [= <-] [= <-]. cbn [es_index]. split.
  - intros Heq.
    apply split_at_last_underscore in Heq as [Hname Hdim];
      try apply no_underscore_format_dim.
    split; [exact Hname|]. apply (inj pretty). exact Hdim.
  - intros [-> ->]. reflexivity.
Qed.

End IndexNames.

(** ** The loader, further *)

Section LoaderFailures.
Import YoutubeVideoLoader.

Variable from_youtube_url : string -> bool -> result YoutubeLoader.
Variable clean_string : string -> string.

(** X20: [load_data] fails in three cases and no other: the provider
    refuses the reference, loading the transcript raises, in both of which
    the provider's own error comes through, or the transcript has no
    document, which gives the "No data found" error. *)
Theorem load_data_failures (url : string) (e : exn) :
  load_data from_youtube_url clean_string url = Err e
  <-> (from_youtube_url url true = Err e
       \/ exists loader, from_youtube_url url true = Ok loader
            /\ (load loader = Err e
                \/ (load loader = Ok [] /\ e = ValueError "No data found"))).
Proof.
  unfold load_data.
  destruct (from_youtube_url url true) as [loader|e0].
  - destruct (load loader) as [[|doc0 docs]|e1] eqn:Hl.
    + split.
      * intros [= <-]. right. exists loader. split; [reflexivity|].
        right. split; [exact Hl|reflexivity].
      * intros [H|(l & [= <-] & [H|[_ ->]])]; [discriminate| |reflexivity].
        rewrite Hl in H. discriminate.
    + split; [discriminate|].
      intros [H|(l & [= <-] & [H|[H _]])]; [discriminate| |];
        rewrite Hl in H; discriminate.
    + split.
      * intros [= <-]. right. exists loader. split; [reflexivity|]. left. exact Hl.
      * intros [H|(l & [= <-] & [H|[H _]])]; [discriminate| |];
          rewrite Hl in H; [injection H as ->; reflexivity|discriminate].
  - split.
    + intros [= <-]. left. reflexivity.
    + intros [H|(l & H & _)]; [injection H as ->; reflexivity|discriminate].
Qed.

End LoaderFailures.

(** ** The further properties at sample inputs *)

Section MoreSamples.
Import ElasticsearchDB Elasticsearch.

Lemma new_collection_is_empty_witness :
  (run Sample.eval_script
       (db <- __init__ (Some Sample.cfg) (Callable Sample.embedding_fn) (Some 2)
                       (Some "docs") ;;
        count db) ∅).1 = Ok 0.
Proof.
  exact (proj1 (new_collection_is_empty Sample.eval_script Sample.cfg
                  Sample.embedding_fn 2 "docs" ∅ eq_refl)).
Defined.

Lemma reset_then_construct_again_witness :
  (run Sample.eval_script
       (reset Sample.db ;;;
        db <- __init__ (Some Sample.cfg) (Callable Sample.embedding_fn) (Some 2)
                       (Some "docs") ;;
        count db) Sample.stocked).1 = Ok 0.
Proof.
  apply (reset_then_construct_again Sample.eval_script Sample.db Sample.cfg
           Sample.embedding_fn 2 "docs" Sample.stocked).
  vm_compute. reflexivity.
Defined.

Lemma reads_after_reset_raise_witness :
  (run Sample.eval_script (reset Sample.db ;;; get Sample.db ["x"] ∅)
       Sample.stocked).1
  = Err (NotFoundError "index_not_found_exception").
Proof.
  exact (proj1 (reads_after_reset_raise Sample.eval_script Sample.db ["x"] ["q"] 3 ∅
                  (Sample.embed "q") [] Sample.stocked eq_refl)).
Defined.

Lemma sample_ids_distinct : NoDup ["a"; "b"].
Proof. apply (bool_decide_unpack _). vm_compute. exact I. Qed.

Lemma add_upserts_witness :
  (run Sample.eval_script (add Sample.db ["t1"; "t2"] [∅; ∅] ["a"; "b"])
       Sample.stocked).1 = Ok tt.
Proof.
  rewrite (add_upserts Sample.eval_script Sample.db ["t1"; "t2"] [∅; ∅] ["a"; "b"]
             (map Sample.embed ["t1"; "t2"]) Sample.stocked Sample.stocked_index
             eq_refl eq_refl sample_ids_distinct).
  reflexivity.
Defined.

Lemma add_twice_is_add_once_witness :
  run Sample.eval_script
      (add Sample.db ["t1"; "t2"] [∅; ∅] ["a"; "b"] ;;;
       add Sample.db ["t1"; "t2"] [∅; ∅] ["a"; "b"]) Sample.stocked
  = run Sample.eval_script (add Sample.db ["t1"; "t2"] [∅; ∅] ["a"; "b"])
        Sample.stocked.
Proof.
  exact (proj1 (add_twice_is_add_once Sample.eval_script Sample.db ["t1"; "t2"]
                  [∅; ∅] ["a"; "b"] (map Sample.embed ["t1"; "t2"]) Sample.stocked
                  Sample.stocked_index eq_refl eq_refl sample_ids_distinct)).
Defined.

Lemma add_keeps_ids_unique_witness :
  exists ix' : index,
    (run Sample.eval_script (add Sample.db ["t1"; "t2"] [∅; ∅] ["x"; "x"])
         Sample.stocked).2 !! "docs_2" = Some ix'
    /\ NoDup (map fst (stored ix')).
Proof.
  destruct (add_keeps_ids_unique Sample.eval_script Sample.db ["t1"; "t2"] [∅; ∅]
              ["x"; "x"] (map Sample.embed ["t1"; "t2"]) Sample.stocked
              Sample.stocked_index eq_refl eq_refl)
    as (ix' & Hix' & Hnd & _).
  - apply (bool_decide_unpack _). vm_compute. exact I.
  - exists ix'. split; [exact Hix'|exact Hnd].
Defined.

Lemma add_then_count_witness :
  (run Sample.eval_script
       (add Sample.db ["t1"; "t2"; "t3"] [∅; ∅] ["a"; "b"] ;;; count Sample.db)
       Sample.stocked).1 = Ok 5.
Proof.
  apply (add_then_count Sample.eval_script Sample.db ["t1"; "t2"; "t3"] [∅; ∅]
           ["a"; "b"] (map Sample.embed ["t1"; "t2"; "t3"]) Sample.stocked
           Sample.stocked_index eq_refl eq_refl sample_ids_distinct).
  intros id d Hid Hin.
  assert (Hx : id ∈ ["x"; "y"; "z"])
    by (apply (list_elem_of_fmap_2 fst) in Hin; exact Hin).
  apply elem_of_cons in Hid as [->|Hid];
    [|apply elem_of_cons in Hid as [->|Hid]; [|inversion Hid]];
    repeat (apply elem_of_cons in Hx as [Hx|Hx]; [discriminate|]);
    inversion Hx.
Defined.

Lemma get_finds_the_stored_ids_witness :
  exists found : gset string,
    run Sample.eval_script (get Sample.db ["x"; "y"; "w"] ∅) Sample.stocked
    = (Ok found, Sample.stocked)
    /\ "x" ∈ found.
Proof.
  destruct (get_finds_the_stored_ids Sample.eval_script Sample.db ["x"; "y"; "w"] ∅
              Sample.stocked Sample.stocked_index eq_refl)
    as (found & Hrun & _ & Hall).
  exists found. split; [exact Hrun|].
  apply (Hall ltac:(vm_compute; lia) "x" (mkSource "one" ∅ (Sample.embed "one"))).
  - left.
  - left.
  - intros v Hv. discriminate.
Defined.

Lemma eleven_ids_distinct : NoDup (map fst MoreSample.eleven_docs).
Proof. apply (bool_decide_unpack _). vm_compute. exact I. Qed.

Lemma get_is_capped_at_ten_witness :
  exists found : gset string,
    run Sample.eval_script (get Sample.db MoreSample.eleven_ids ∅)
        MoreSample.crowded
    = (Ok found, MoreSample.crowded)
    /\ (size found <= 10)%nat
    /\ exists id d,
         (id, d) ∈ MoreSample.eleven_docs /\ id ∈ MoreSample.eleven_ids
         /\ id ∉ found.
Proof.
  assert (Hix : MoreSample.crowded !! es_index Sample.db
                = Some MoreSample.eleven_index) by (vm_compute; reflexivity).
  destruct (get_is_capped_at_ten Sample.eval_script Sample.db
              MoreSample.eleven_ids ∅ MoreSample.crowded MoreSample.eleven_index
              Hix)
    as (found & Hrun & Hsize & Hmiss).
  destruct (Hmiss eleven_ids_distinct ltac:(vm_compute; lia))
    as (id & d & Hin & Hid & _ & Hnot).
  exists found. split; [exact Hrun|]. split; [exact Hsize|].
  exists id, d. split; [exact Hin|]. split; [exact Hid|exact Hnot].
Defined.

Lemma query_filter_isolates_app_witness :
  exists docs : list (string * doc_source),
    run Sample.eval_script (query Sample.db ["q"] 5 {["app_id" := PStr "app"]})
        Sample.stocked
    = (Ok (map (fun p => text p.2) docs), Sample.stocked)
    /\ length docs = 1%nat.
Proof.
  destruct (query_filter_isolates_app Sample.eval_script Sample.db ["q"] 5
              {["app_id" := PStr "app"]} (PStr "app") (Sample.embed "q") []
              Sample.stocked Sample.stocked_index)
    as (docs & Hrun & _ & Hlen).
  - vm_compute. reflexivity.
  - reflexivity.
  - reflexivity.
  - unfold max_result_window. lia.
  - exists docs. split; [exact Hrun|]. rewrite Hlen. vm_compute. reflexivity.
Defined.

Lemma query_without_filter_ranks_all_witness :
  exists texts : list string,
    run Sample.eval_script (query Sample.db ["q"] 5 ∅) Sample.stocked
    = (Ok texts, Sample.stocked)
    /\ length texts = 3%nat.
Proof.
  destruct (query_without_filter_ranks_all Sample.eval_script Sample.db ["q"] 5 ∅
              (Sample.embed "q") [] Sample.stocked Sample.stocked_index)
    as (texts & Hrun & Hlen & _).
  - reflexivity.
  - reflexivity.
  - reflexivity.
  - unfold max_result_window. lia.
  - exists texts. split; [exact Hrun|exact Hlen].
Defined.

Lemma query_limit_outside_window_witness :
  exists msg,
    run Sample.eval_script (query Sample.db ["q"] (-1) ∅) Sample.stocked
    = (Err (BadRequestError msg), Sample.stocked).
Proof.
  apply (query_limit_outside_window Sample.eval_script Sample.db ["q"] (-1) ∅
           (Sample.embed "q") [] Sample.stocked Sample.stocked_index).
  - reflexivity.
  - reflexivity.
  - left. lia.
Defined.

Lemma writes_stay_in_own_index_witness :
  (run Sample.eval_script (reset Sample.db)
       (<["other_3" := Sample.fresh_index]> Sample.stocked)).2 !! "other_3"
  = (<["other_3" := Sample.fresh_index]> Sample.stocked) !! "other_3".
Proof.
  apply (writes_stay_in_own_index Sample.eval_script Sample.db ["t"] [∅] ["a"]
           (<["other_3" := Sample.fresh_index]> Sample.stocked) "other_3").
  discriminate.
Defined.

Lemma add_then_get_by_app_witness :
  (run Sample.eval_script
       (add Sample.db ["t"] [{["app_id" := PStr "X"]}] ["a"] ;;;
        get Sample.db ["a"] {["app_id" := PStr "Y"]}) Sample.fresh).1
  = Ok (∅ : gset string).
Proof.
  rewrite (add_then_get_by_app Sample.eval_script Sample.db "t" "a"
             {["app_id" := PStr "X"]} {["app_id" := PStr "Y"]} (Sample.embed "t") []
             Sample.fresh Sample.fresh_index eq_refl eq_refl).
  vm_compute. reflexivity.
Defined.

Lemma texts_follow_the_response_witness :
  texts_of [mkHit "a" 1 (Some (mkHitFields (Some "t1") None None));
            mkHit "b" 1 None]
  = Raise (KeyError "_source").
Proof.
  apply (texts_follow_the_response
           [mkHit "a" 1 (Some (mkHitFields (Some "t1") None None))] []
           ["t1"] (mkHit "b" 1 None)).
  - repeat constructor. eexists. split; reflexivity.
  - reflexivity.
Defined.

Lemma index_name_tells_collection_witness :
  es_index Sample.db = es_index (mkDB Sample.embedding_fn 2 "docs_2_2")
  <-> "docs" = "docs_2" /\ 2 = 2.
Proof.
  apply (index_name_tells_collection Sample.eval_script Sample.cfg Sample.cfg
           Sample.embedding_fn Sample.embedding_fn 2 2 "docs" "docs_2" ∅ ∅).
  - vm_compute. reflexivity.
  - vm_compute. reflexivity.
Defined.

End MoreSamples.
